(** * push.js: a shallow embedding of [src/push.js] and its properties

    The library is one constructor function [Push] that closes over the
    browser window [w], probes the host once ([self.isSupported]) and exposes
    [Permission.get], [Permission.request] and [create].  Everything it does
    is an interaction with host objects, so the embedding is a small state and
    exception monad over

    - the two implicit globals the source assigns ([notification] and
      [wrapper], lines 73-116: the factory function is not in strict mode and
      [create_callback] is outside the scope of the [var] of line 288), and
    - the trace of calls made to host functions, in program order.

    Modelling conventions, all of them about the host and none about the
    library's own control flow:

    - [window] and [navigator] are objects (line 33 dereferences [window]
      while the file loads), so reading one of their properties cannot raise;
    - the identifier [win] (lines 85, 105, 129) is declared nowhere in the
      source: it resolves to a global of the page if there is one and raises a
      ReferenceError otherwise;
    - [console.error] and [setTimeout] are present host primitives;
    - a call of a host function is one event of the trace; a function
      expression of push.js that the host was handed is run by the host as a
      separate step ([run_closure]), so the trace lists the calls written in
      the library, and a statement about one library function is about the
      statements of that function;
    - objects are plain property lists, the [constructor] of a value is the
      one of its kind, a host function returns the same value at every call,
      and numbers are integers. *)

From Stdlib Require Import String List ZArith Bool Lia.
Import ListNotations.
Local Open Scope string_scope.
Local Open Scope Z_scope.

(** ** JavaScript values *)

(** Functions that are not defined by push.js: functions of the host and
    callbacks of the page.  The label only tells them apart. *)
Inductive func : Type :=
| FNative (label : string)      (* returns normally *)
| FThrows (label : string).     (* raises when called *)

#[warnings="-register-all"]
Inductive value : Type :=
| VUndefined
| VNull
| VBool (b : bool)
| VNum (n : Z)
| VStr (s : string)
| VObj (props : list (string * value))
| VFun (f : func) (ret : value) (props : list (string * value)).

Definition props := list (string * value).

(** The function expressions of push.js itself.  They are never stored in a
    host object by the library; they are handed to host functions as
    arguments. *)
Inductive closure : Type :=
| CNoop                                   (* line 198: function () {} *)
| CCreate (title options : value)         (* lines 299-301 *)
| CShowListener (options : value)         (* lines 142-148 *)
| CTimer                                  (* lines 144-146 *)
| CWrapperClose.                          (* lines 118-133 *)

Inductive arg : Type :=
| AVal (v : value)
| AClosure (c : closure).

Inductive error : Type :=
| TypeError
| ReferenceError
| HostError.

Inductive event : Type :=
| EvCall (site : string) (args : list arg)   (* f(args) at that call site *)
| EvNew (site : string) (args : list arg).   (* new f(args) *)

(** ** Host and program state *)

Record host : Type := mkHost {
  w : props;                 (* the window object *)
  navigator : props;         (* the navigator object *)
  win : option value         (* the page's global [win], if it has one *)
}.

Record state : Type := mkState {
  g_notification : option value;   (* implicit global [notification] *)
  g_wrapper : bool;                (* implicit global [wrapper] is bound *)
  trace : list event
}.

Definition init_state : state := mkState None false [].

(** ** The monad *)

Inductive result (A : Type) : Type :=
| Ok (a : A)
| Throw (e : error).
Arguments Ok {A} a.
Arguments Throw {A} e.

Definition M (A : Type) : Type := state -> result A * state.

Definition ret {A} (a : A) : M A := fun s => (Ok a, s).

Definition bind {A B} (m : M A) (k : A -> M B) : M B :=
  fun s => match m s with
           | (Ok a, s') => k a s'
           | (Throw e, s') => (Throw e, s')
           end.

Definition throw {A} (e : error) : M A := fun s => (Throw e, s).

Definition emit (e : event) : M unit :=
  fun s => (Ok tt, mkState (g_notification s) (g_wrapper s) (trace s ++ [e])).

Declare Scope js_scope.
Delimit Scope js_scope with js.
Notation "x <- m ;; k" := (bind m (fun x => k))
  (at level 61, m at next level, right associativity) : js_scope.
Notation "m ;;; k" := (bind m (fun _ => k))
  (at level 61, right associativity) : js_scope.
Local Open Scope js_scope.

(** ** Primitive operations *)

Definition truthy (v : value) : bool :=
  match v with
  | VUndefined | VNull => false
  | VBool b => b
  | VNum n => negb (n =? 0)
  | VStr s => negb (String.eqb s "")
  | VObj _ | VFun _ _ _ => true
  end.

Inductive ctor : Type := CtorBoolean | CtorNumber | CtorString | CtorObject | CtorFunction.

(** [v.constructor], for a [v] that is neither undefined nor null. *)
Definition constructor_of (v : value) : option ctor :=
  match v with
  | VUndefined | VNull => None
  | VBool _ => Some CtorBoolean
  | VNum _ => Some CtorNumber
  | VStr _ => Some CtorString
  | VObj _ => Some CtorObject
  | VFun _ _ _ => Some CtorFunction
  end.

Definition is_ctor (c : ctor) (o : option ctor) : bool :=
  match c, o with
  | CtorString, Some CtorString => true
  | CtorFunction, Some CtorFunction => true
  | _, _ => false
  end.

(** Lines 60-62. *)
Definition isUndefined (obj : value) : bool :=
  match obj with VUndefined => true | _ => false end.

Definition isString (obj : value) : bool :=
  truthy obj && is_ctor CtorString (constructor_of obj).

Definition isFunction (obj : value) : bool :=
  truthy obj && is_ctor CtorFunction (constructor_of obj).

(** A function expression of push.js is a function. *)
Definition isFunction_arg (a : arg) : bool :=
  match a with
  | AVal v => isFunction v
  | AClosure _ => true
  end.

Fixpoint lookup (k : string) (l : props) : value :=
  match l with
  | [] => VUndefined
  | (k', v) :: l' => if String.eqb k k' then v else lookup k l'
  end.

(** [o.k]: a TypeError on undefined and null, undefined on a primitive. *)
Definition get_prop (o : value) (k : string) : M value :=
  match o with
  | VUndefined | VNull => throw TypeError
  | VObj l => ret (lookup k l)
  | VFun _ _ l => ret (lookup k l)
  | VBool _ | VNum _ | VStr _ => ret VUndefined
  end.

(** [f(args)] written at [site]. *)
Definition call (site : string) (f : value) (args : list arg) : M value :=
  match f with
  | VFun (FNative _) r _ => emit (EvCall site args) ;;; ret r
  | VFun (FThrows _) _ _ => emit (EvCall site args) ;;; throw HostError
  | _ => throw TypeError
  end.

(** [new f(args)] written at [site]. *)
Definition construct (site : string) (f : value) (args : list arg) : M value :=
  match f with
  | VFun (FNative _) r _ => emit (EvNew site args) ;;; ret r
  | VFun (FThrows _) _ _ => emit (EvNew site args) ;;; throw HostError
  | _ => throw TypeError
  end.

(** Reading the identifier [win]. *)
Definition read_win (h : host) : M value :=
  match win h with
  | Some v => ret v
  | None => throw ReferenceError
  end.

(** Reading the implicit global [notification]. *)
Definition read_notification : M value :=
  fun s => match g_notification s with
           | Some v => (Ok v, s)
           | None => (Throw ReferenceError, s)
           end.

Definition write_notification (v : value) : M unit :=
  fun s => (Ok tt, mkState (Some v) (g_wrapper s) (trace s)).

Definition write_wrapper : M unit :=
  fun s => (Ok tt, mkState (g_notification s) true (trace s)).

(** ** The library *)

(** [a && b], where [b] is evaluated only when [a] is truthy. *)
Definition js_and (a : value) (b : M value) : M value :=
  if truthy a then b else ret a.

(** [a || b], where [b] is evaluated only when [a] is falsy. *)
Definition js_or (a : value) (b : M value) : M value :=
  if truthy a then ret a else b.

Definition W (h : host) : value := VObj (w h).
Definition Navigator (h : host) : value := VObj (navigator h).

(** Lines 172-178. *)
Definition DEFAULT : value := VStr "default".
Definition GRANTED : value := VStr "granted".
Definition DENIED : value := VStr "denied".

Definition Permissions : list value := [GRANTED; DEFAULT; DENIED].

(** [Permissions[i]]: the array has the three index properties; of its other
    properties only [length] is modelled. *)
Definition Permissions_at (i : value) : value :=
  match i with
  | VNum n => if (0 <=? n) && (n <? 3) then nth (Z.to_nat n) Permissions VUndefined
              else VUndefined
  | VStr "0" => GRANTED
  | VStr "1" => DEFAULT
  | VStr "2" => DENIED
  | VStr "length" => VNum 3
  | _ => VUndefined
  end.

(** [Permissions.GRANTED] (line 236): the array has no such property. *)
Definition Permissions_GRANTED : value := VUndefined.

(** [x !== undefined] and [x !== 'granted'] *)
Definition strict_neq_undefined (x : value) : bool := negb (isUndefined x).

Definition strict_eq_str (x : value) (s : string) : bool :=
  match x with
  | VStr s' => String.eqb s' s
  | _ => false
  end.

(** *** Capability probe, lines 255-279 *)

(** [w.external && w.external.msIsSiteMode() !== undefined] *)
Definition siteMode_test (h : host) : M value :=
  ext <- get_prop (W h) "external" ;;
  js_and ext
    (ext' <- get_prop (W h) "external" ;;
     f <- get_prop ext' "msIsSiteMode" ;;
     r <- call "w.external.msIsSiteMode" f [] ;;
     ret (VBool (strict_neq_undefined r))).

Definition isSupported_expr (h : host) : M value :=
  n <- get_prop (W h) "Notification" ;;
  js_or n
    (wk <- get_prop (W h) "webkitNotifications" ;;
     js_or wk
       (mz <- get_prop (Navigator h) "mozNotification" ;;
        js_or mz (siteMode_test h))).

(** The immediately invoked function of lines 255-279: the local
    [isSupported] starts as [false], the assignment inside [try] is reached
    only if the expression does not raise, and the [catch] block is empty. *)
Definition isSupported_probe (h : host) : M bool :=
  fun s =>
    match isSupported_expr h s with
    | (Ok v, s') => (Ok (truthy v), s')
    | (Throw _, s') => (Ok false, s')
    end.

Definition isSupported (h : host) : bool :=
  match fst (isSupported_probe h init_state) with
  | Ok b => b
  | Throw _ => false
  end.

(** The [Push] object: [self.isSupported] is computed once, when the object
    is constructed, and read by every later call. *)
Record Push : Type := mkPush { self_isSupported : bool }.

Definition Push_new (h : host) : Push := mkPush (isSupported h).

(** *** Permission.request, lines 192-209 *)

Definition normalize_callback (callback : arg) : arg :=
  if isFunction_arg callback then callback else AClosure CNoop.

Definition Permission_request (self : Push) (h : host) (callback : arg) : M value :=
  if negb (self_isSupported self) then ret VUndefined
  else
    let callback := normalize_callback callback in
    wk <- get_prop (W h) "webkitNotifications" ;;
    c <- js_and wk (wk' <- get_prop (W h) "webkitNotifications" ;;
                    get_prop wk' "checkPermission") ;;
    if truthy c then
      wk' <- get_prop (W h) "webkitNotifications" ;;
      f <- get_prop wk' "requestPermission" ;;
      call "w.webkitNotifications.requestPermission" f [callback] ;;;
      ret VUndefined
    else
      n <- get_prop (W h) "Notification" ;;
      c <- js_and n (n' <- get_prop (W h) "Notification" ;;
                     get_prop n' "requestPermission") ;;
      if truthy c then
        n' <- get_prop (W h) "Notification" ;;
        f <- get_prop n' "requestPermission" ;;
        call "w.Notification.requestPermission" f [callback] ;;;
        ret VUndefined
      else ret VUndefined.

(** *** Permission.get, lines 215-245 *)

Definition Permission_get (self : Push) (h : host) : M value :=
  if negb (self_isSupported self) then ret VUndefined
  else
    n <- get_prop (W h) "Notification" ;;
    c <- js_and n (n' <- get_prop (W h) "Notification" ;;
                   get_prop n' "permissionLevel") ;;
    if truthy c then
      n' <- get_prop (W h) "Notification" ;;
      get_prop n' "permissionLevel"
    else
      wk <- get_prop (W h) "webkitNotifications" ;;
      c <- js_and wk (wk' <- get_prop (W h) "webkitNotifications" ;;
                      get_prop wk' "checkPermission") ;;
      if truthy c then
        wk' <- get_prop (W h) "webkitNotifications" ;;
        f <- get_prop wk' "checkPermission" ;;
        i <- call "w.webkitNotifications.checkPermission" f [] ;;
        ret (Permissions_at i)
      else
        n <- get_prop (W h) "Notification" ;;
        c <- js_and n (n' <- get_prop (W h) "Notification" ;;
                       get_prop n' "permission") ;;
        if truthy c then
          n' <- get_prop (W h) "Notification" ;;
          get_prop n' "permission"
        else
          mz <- get_prop (Navigator h) "mozNotification" ;;
          if truthy mz then ret Permissions_GRANTED
          else
            c <- siteMode_test h ;;
            if truthy c then
              ext <- get_prop (W h) "external" ;;
              f <- get_prop ext "msIsSiteMode" ;;
              r <- call "w.external.msIsSiteMode" f [] ;;
              ret (if truthy r then GRANTED else DEFAULT)
            else ret VUndefined.

(** *** The close operation of the wrapper, lines 118-133 *)

(** Lines 129-131, the site-mode branch. *)
Definition close_siteMode (h : host) : M value :=
  ext <- get_prop (W h) "external" ;;
  c <- js_and ext (wn <- read_win h ;;
                   e <- get_prop wn "external" ;;
                   get_prop e "msIsSiteMode") ;;
  if truthy c then
    ext' <- get_prop (W h) "external" ;;
    f <- get_prop ext' "msSiteModeClearIconOverlay" ;;
    call "w.external.msSiteModeClearIconOverlay" f [] ;;;
    ret VUndefined
  else ret VUndefined.

Definition wrapper_close (h : host) : M value :=
  n <- read_notification ;;
  c <- get_prop n "close" ;;
  if truthy c then
    n' <- read_notification ;;
    f <- get_prop n' "close" ;;
    call "notification.close" f [] ;;;
    ret VUndefined
  else
    n' <- read_notification ;;
    c <- get_prop n' "cancel" ;;
    if truthy c then
      n'' <- read_notification ;;
      f <- get_prop n'' "cancel" ;;
      call "notification.cancel" f [] ;;;
      ret VUndefined
    else close_siteMode h.

(** *** create_callback, lines 68-166 *)

(** [(isString(options.icon) || isUndefined(options.icon)) ? options.icon
     : options.icon.<size>], lines 76 and 109. *)
Definition resolve_icon (options : value) (size : string) : M value :=
  i <- get_prop options "icon" ;;
  c <- (if isString i then ret true
        else (i' <- get_prop options "icon" ;; ret (isUndefined i'))) ;;
  if c : bool then get_prop options "icon"
  else (i' <- get_prop options "icon" ;; get_prop i' size).

(** Lines 71-113: the four display branches. *)
Definition display (h : host) (title options : value) : M unit :=
  n <- get_prop (W h) "Notification" ;;
  if truthy n then
    cons <- get_prop (W h) "Notification" ;;
    icon <- resolve_icon options "x32" ;;
    body <- get_prop options "body" ;;
    tag <- get_prop options "tag" ;;
    o <- construct "w.Notification" cons
           [AVal title; AVal (VObj [("icon", icon); ("body", body); ("tag", tag)])] ;;
    write_notification o
  else
    wk <- get_prop (W h) "webkitNotifications" ;;
    if truthy wk then
      wn <- read_win h ;;
      wk' <- get_prop wn "webkitNotifications" ;;
      f <- get_prop wk' "createNotification" ;;
      icon <- get_prop options "icon" ;;
      body <- get_prop options "body" ;;
      o <- call "win.webkitNotifications.createNotification" f
             [AVal icon; AVal title; AVal body] ;;
      write_notification o ;;;
      nt <- read_notification ;;
      sh <- get_prop nt "show" ;;
      call "notification.show" sh [] ;;;
      ret tt
    else
      mz <- get_prop (Navigator h) "mozNotification" ;;
      if truthy mz then
        mz' <- get_prop (Navigator h) "mozNotification" ;;
        f <- get_prop mz' "createNotification" ;;
        body <- get_prop options "body" ;;
        icon <- get_prop options "icon" ;;
        o <- call "navigator.mozNotification.createNotification" f
               [AVal title; AVal body; AVal icon] ;;
        write_notification o ;;;
        nt <- read_notification ;;
        sh <- get_prop nt "show" ;;
        call "notification.show" sh [] ;;;
        ret tt
      else
        wn <- read_win h ;;
        ext <- get_prop wn "external" ;;
        c <- js_and ext (wn' <- read_win h ;;
                         e <- get_prop wn' "external" ;;
                         f <- get_prop e "msIsSiteMode" ;;
                         call "win.external.msIsSiteMode" f []) ;;
        if truthy c then
          e1 <- get_prop (W h) "external" ;;
          f1 <- get_prop e1 "msSiteModeClearIconOverlay" ;;
          call "w.external.msSiteModeClearIconOverlay" f1 [] ;;;
          e2 <- get_prop (W h) "external" ;;
          f2 <- get_prop e2 "msSiteModeSetIconOverlay" ;;
          icon <- resolve_icon options "x16" ;;
          call "w.external.msSiteModeSetIconOverlay" f2 [AVal icon; AVal title] ;;;
          e3 <- get_prop (W h) "external" ;;
          f3 <- get_prop e3 "msSiteModeActivate" ;;
          call "w.external.msSiteModeActivate" f3 [] ;;;
          write_notification (VObj [])
        else ret tt.

(** [notification.addEventListener(type, listener)]: the callee is resolved
    before the listener expression is evaluated. *)
Definition addEventListener (type : string) (listener : M arg) : M unit :=
  nt <- read_notification ;;
  f <- get_prop nt "addEventListener" ;;
  l <- listener ;;
  call "notification.addEventListener" f [AVal (VStr type); l] ;;;
  ret tt.

(** [options.<slot>] as a listener argument. *)
Definition option_slot (options : value) (slot : string) : M arg :=
  cb <- get_prop options slot ;; ret (AVal cb).

(** Lines 137-150: the auto-close timeout. *)
Definition bind_timeout (options : value) : M unit :=
  nt <- read_notification ;;
  c <- js_and nt (nt' <- read_notification ;;
                  a <- get_prop nt' "addEventListener" ;;
                  js_and a (get_prop options "timeout")) ;;
  if truthy c then addEventListener "show" (ret (AClosure (CShowListener options)))
  else ret tt.

(** Lines 152-165: the callbacks of the page. *)
Definition bind_callbacks (options : value) : M unit :=
  onShow <- get_prop options "onShow" ;;
  (if isFunction onShow then addEventListener "show" (option_slot options "onShow")
   else ret tt) ;;;
  onError <- get_prop options "onError" ;;
  (if isFunction onError then addEventListener "error" (option_slot options "onError")
   else ret tt) ;;;
  onClick <- get_prop options "onClick" ;;
  (if isFunction onClick then addEventListener "click" (option_slot options "onClick")
   else ret tt) ;;;
  onClose <- get_prop options "onClose" ;;
  (if isFunction onClose then
     addEventListener "close" (option_slot options "onClose") ;;;
     addEventListener "cancel" (option_slot options "onClose")
   else ret tt).

(** Lines 137-165. *)
Definition lifecycle_bind (options : value) : M unit :=
  bind_timeout options ;;; bind_callbacks options.

Definition create_callback (h : host) (title options : value) : M value :=
  display h title options ;;;
  write_wrapper ;;;
  lifecycle_bind options ;;;
  ret VUndefined.

(** *** Running a function expression of push.js

    The host runs them: a permission request its callback, a notification
    its listeners, the timer its function.  [wrapper.close()] in the timer
    function reads the global [wrapper], whose [close] is always the function
    of lines 118-133. *)
Definition run_closure (h : host) (c : closure) (args : list value) : M value :=
  match c with
  | CNoop => ret VUndefined
  | CCreate title options => create_callback h title options
  | CShowListener options =>
      t <- get_prop options "timeout" ;;
      emit (EvCall "setTimeout" [AClosure CTimer; AVal t]) ;;;
      ret VUndefined
  | CTimer =>
      (fun s => if g_wrapper s then wrapper_close h s
                else (Throw ReferenceError, s))
  | CWrapperClose => wrapper_close h
  end.

(** *** create, lines 286-304 *)

Definition incompatible_message : string :=
  "push.js is incompatible with self browser.".

Definition create (self : Push) (h : host) (title options : value) : M value :=
  if negb (self_isSupported self) then
    emit (EvCall "console.error" [AVal (VStr incompatible_message)]) ;;;
    ret VUndefined
  else
    p <- Permission_get self h ;;
    if negb (strict_eq_str p "granted") then
      Permission_request self h (AClosure (CCreate title options)) ;;;
      ret VUndefined
    else ret VUndefined.

(** * Definitions used by the statements *)

(** ** Definitions: Capability probe *)

(** The four variant detectors, in the precedence order of the probe. *)
Definition detect_Notification (h : host) : M value :=
  get_prop (W h) "Notification".
Definition detect_webkitNotifications (h : host) : M value :=
  get_prop (W h) "webkitNotifications".
Definition detect_mozNotification (h : host) : M value :=
  get_prop (Navigator h) "mozNotification".
Definition detect_msIsSiteMode (h : host) : M value := siteMode_test h.

Definition variant_detectors : list (host -> M value) :=
  [detect_Notification; detect_webkitNotifications;
   detect_mozNotification; detect_msIsSiteMode].

(** A detector matches when it evaluates, without raising, to a truthy
    value. *)
Definition detector_matches (h : host) (d : host -> M value) : bool :=
  match fst (d h init_state) with
  | Ok v => truthy v
  | Throw _ => false
  end.

(** A detector raises. *)
Definition detector_throws (h : host) (d : host -> M value) : bool :=
  match fst (d h init_state) with
  | Ok _ => false
  | Throw _ => true
  end.

(** A host whose only capability is a [window.external] without a callable
    [msIsSiteMode]: the fourth detector raises and the probe answers [false]. *)
Definition throwing_probe_host : host :=
  mkHost [("external", VObj [])] [] None.

(** ** Definitions: The facade [create] *)

(** A host with no notification capability at all. *)
Definition bare_host : host := mkHost [] [] None.

(** The notification object of a modern browser. *)
Definition modern_notification : value :=
  VObj [("close", VFun (FNative "close") VUndefined []);
        ("addEventListener", VFun (FNative "addEventListener") VUndefined [])].

(** A browser with the [Notification] constructor, whose permission is
    [perm]. *)
Definition modern_host (perm : value) : host :=
  mkHost
    [("Notification",
      VFun (FNative "Notification") modern_notification
        [("permission", perm);
         ("requestPermission", VFun (FNative "requestPermission") VUndefined [])])]
    [] None.

(** ** Definitions: Permission.get *)

Definition is_permission_state (v : value) : Prop :=
  v = GRANTED \/ v = DEFAULT \/ v = DENIED.

(** [base.k], for a [base] that was tested truthy or is skipped. *)
Definition host_prop (base : value) (k : string) : value :=
  match base with
  | VObj l | VFun _ _ l => lookup k l
  | _ => VUndefined
  end.

(** The permission signals [Permission.get] consults, in its order. *)
Definition signal_permissionLevel (h : host) : value :=
  host_prop (lookup "Notification" (w h)) "permissionLevel".
Definition signal_checkPermission (h : host) : value :=
  host_prop (lookup "webkitNotifications" (w h)) "checkPermission".
Definition signal_permission (h : host) : value :=
  host_prop (lookup "Notification" (w h)) "permission".
Definition signal_mozNotification (h : host) : value :=
  lookup "mozNotification" (navigator h).
Definition signal_msIsSiteMode (h : host) : value :=
  host_prop (lookup "external" (w h)) "msIsSiteMode".

(** The signal of the active variant is present and well formed.  The
    Firefox Mobile variant (line 236) is not covered. *)
Inductive wellformed_signal (h : host) : Prop :=
| wf_permissionLevel :
    is_permission_state (signal_permissionLevel h) ->
    wellformed_signal h
| wf_checkPermission (label : string) (i : Z) (l : props) :
    truthy (signal_permissionLevel h) = false ->
    signal_checkPermission h = VFun (FNative label) (VNum i) l ->
    0 <= i < 3 ->
    wellformed_signal h
| wf_permission :
    truthy (signal_permissionLevel h) = false ->
    truthy (signal_checkPermission h) = false ->
    is_permission_state (signal_permission h) ->
    wellformed_signal h
| wf_msIsSiteMode (label : string) (r : value) (l : props) :
    truthy (signal_permissionLevel h) = false ->
    truthy (signal_checkPermission h) = false ->
    truthy (signal_permission h) = false ->
    truthy (signal_mozNotification h) = false ->
    truthy (lookup "external" (w h)) = true ->
    signal_msIsSiteMode h = VFun (FNative label) r l ->
    r <> VUndefined ->
    wellformed_signal h.

(** No variant offers a permission signal. *)
Definition no_signal (h : host) : Prop :=
  truthy (signal_permissionLevel h) = false
  /\ truthy (signal_checkPermission h) = false
  /\ truthy (signal_permission h) = false
  /\ truthy (signal_mozNotification h) = false
  /\ truthy (lookup "external" (w h)) = false.

(** A browser that has the [Notification] constructor and nothing to read
    the permission from. *)
Definition silent_host : host :=
  mkHost
    [("Notification",
      VFun (FNative "Notification") modern_notification
        [("requestPermission", VFun (FNative "requestPermission") VUndefined [])])]
    [] None.

(** The value of [a && a.k]. *)
Definition guarded (a : value) (k : string) : value :=
  if truthy a then host_prop a k else a.

(** The notification object of Firefox Mobile: it can be shown, and has no
    event registration. *)
Definition moz_notification : value :=
  VObj [("show", VFun (FNative "show") VUndefined [])].

(** Firefox Mobile: [navigator.mozNotification] only. *)
Definition moz_host : host :=
  mkHost []
    [("mozNotification",
      VObj [("createNotification",
             VFun (FNative "createNotification") moz_notification [])])]
    None.

(** ** Definitions: Permission.request *)

Definition signal_requestPermission (h : host) : value :=
  host_prop (lookup "Notification" (w h)) "requestPermission".

(** The native request function [Permission.request] dispatches to, with its
    call site: the one of the legacy webkit object when that object has
    [checkPermission], else the one of [Notification]. *)
Definition request_target (h : host) : option (string * value) :=
  if truthy (signal_checkPermission h) then
    Some ("w.webkitNotifications.requestPermission",
          host_prop (lookup "webkitNotifications" (w h)) "requestPermission")
  else if truthy (signal_requestPermission h) then
    Some ("w.Notification.requestPermission", signal_requestPermission h)
  else None.

(** A function argument occurs in a call recorded by the trace. *)
Definition handed_over (cb : arg) (t : list event) : Prop :=
  exists site args, In (EvCall site args) t /\ In cb args.

(** A callback of the page. *)
Definition page_callback (label : string) : value :=
  VFun (FNative label) VUndefined [].

(** ** Definitions: The close operation of the handle *)

(** Whether a value can hold properties: anything but undefined and null. *)
Definition nullish (v : value) : bool :=
  match v with
  | VUndefined | VNull => true
  | _ => false
  end.

(** The outcome of a call that discards the value, as the statements
    [f();] of the source do. *)
Definition call_stmt (site : string) (f : value) (args : list arg) (s : state)
  : result value * state :=
  match call site f args s with
  | (Ok _, s') => (Ok VUndefined, s')
  | (Throw e, s') => (Throw e, s')
  end.

(** [s'] is [s] with the events [l] appended and the globals untouched. *)
Definition extends_by (s s' : state) (l : list event) : Prop :=
  g_notification s' = g_notification s
  /\ g_wrapper s' = g_wrapper s
  /\ trace s' = (trace s ++ l)%list.

Definition ev_close : event := EvCall "notification.close" [].
Definition ev_cancel : event := EvCall "notification.cancel" [].
Definition ev_clear_overlay : event :=
  EvCall "w.external.msSiteModeClearIconOverlay" [].

(** [k] calls of the handle's [close] in a row, stopping at the first that
    raises. *)
Fixpoint close_times (h : host) (k : nat) (s : state) : result value * state :=
  match k with
  | O => (Ok VUndefined, s)
  | S k' =>
      match wrapper_close h s with
      | (Ok _, s') => close_times h k' s'
      | (Throw e, s') => (Throw e, s')
      end
  end.

Definition with_events (s : state) (l : list event) : state :=
  mkState (g_notification s) (g_wrapper s) (trace s ++ l).

(** A modern notification has just been shown. *)
Definition shown_state : state := mkState (Some modern_notification) true [].
Definition closed_once : state := snd (wrapper_close bare_host shown_state).
Definition closed_twice : state := snd (wrapper_close bare_host closed_once).

(** ** Definitions: Lifecycle binding *)

(** Some callback slot of the options holds a function. *)
Definition some_callback (o : props) : bool :=
  isFunction (lookup "onShow" o) || isFunction (lookup "onError" o)
  || isFunction (lookup "onClick" o) || isFunction (lookup "onClose" o).

(** ** Definitions: Display and icon resolution *)

(** Internet Explorer 9 in site mode: [window.external] only. *)
Definition ie9_window : props :=
  [("external",
    VObj [("msIsSiteMode", VFun (FNative "msIsSiteMode") (VBool true) []);
          ("msSiteModeClearIconOverlay",
           VFun (FNative "msSiteModeClearIconOverlay") VUndefined []);
          ("msSiteModeSetIconOverlay",
           VFun (FNative "msSiteModeSetIconOverlay") VUndefined []);
          ("msSiteModeActivate",
           VFun (FNative "msSiteModeActivate") VUndefined [])])].

Definition ie9_host : host := mkHost ie9_window [] None.

(** The same browser on a page that defines a global [win] holding the
    window. *)
Definition ie9_host_with_win : host :=
  mkHost ie9_window [] (Some (VObj ie9_window)).

Definition sized_icon : value :=
  VObj [("x32", VStr "icon32.png"); ("x16", VStr "icon16.png")].

(** ** Definitions: frames

    A computation stays within a set of call sites when every host call it
    makes is a plain call at one of them and it leaves the globals alone. *)

Section Frame.

(** The call sites a computation is allowed to use. *)
Variable allowed : list string.

Definition event_allowed (e : event) : bool :=
  match e with
  | EvCall site _ => existsb (String.eqb site) allowed
  | EvNew _ _ => false
  end.

Definition within (s s' : state) : Prop :=
  g_notification s' = g_notification s
  /\ g_wrapper s' = g_wrapper s
  /\ exists l, trace s' = (trace s ++ l)%list
               /\ forallb event_allowed l = true.

Definition stays_within {A} (m : M A) : Prop :=
  forall s, within s (snd (m s)).

End Frame.

Definition facade_sites : list string :=
  ["console.error";
   "w.webkitNotifications.checkPermission";
   "w.external.msIsSiteMode";
   "w.webkitNotifications.requestPermission";
   "w.Notification.requestPermission"].

(** ** Definitions: further properties of the permission adapter *)

(** The call sites of [Permission.get]. *)
Definition query_sites : list string :=
  ["w.webkitNotifications.checkPermission"; "w.external.msIsSiteMode"].

(** A host function that returns normally when called. *)
Definition returns_normally (f : value) : bool :=
  match f with
  | VFun (FNative _) _ _ => true
  | _ => false
  end.

Definition is_throw {A} (r : result A) : bool :=
  match r with
  | Ok _ => false
  | Throw _ => true
  end.

(** The two ways [Permission.get] can raise on a supported host: the legacy
    branch calls a [checkPermission] that is no function or raises, or the
    site-mode branch is reached and calls an [msIsSiteMode] that is no
    function or raises. *)
Definition get_raises (h : host) : bool :=
  if truthy (signal_permissionLevel h) then false
  else if truthy (signal_checkPermission h) then
    negb (returns_normally (signal_checkPermission h))
  else if truthy (signal_permission h) then false
  else if truthy (signal_mozNotification h) then false
  else truthy (lookup "external" (w h))
       && negb (returns_normally (signal_msIsSiteMode h)).

Definition ev_checkPermission : event :=
  EvCall "w.webkitNotifications.checkPermission" [].
Definition ev_msIsSiteMode : event := EvCall "w.external.msIsSiteMode" [].

(** A legacy webkit browser whose [checkPermission] answers [i]. *)
Definition webkit_window (i : value) : props :=
  [("webkitNotifications",
    VObj [("checkPermission", VFun (FNative "checkPermission") i []);
          ("requestPermission",
           VFun (FNative "requestPermission") VUndefined []);
          ("createNotification",
           VFun (FNative "createNotification")
             (VObj [("show", VFun (FNative "show") VUndefined []);
                    ("cancel", VFun (FNative "cancel") VUndefined []);
                    ("addEventListener",
                     VFun (FNative "addEventListener") VUndefined [])])
             [])])].

Definition webkit_host (i : value) : host := mkHost (webkit_window i) [] None.

(** A browser with [Notification] and a [window.external] that has no
    [msIsSiteMode]. *)
Definition broken_external_host : host :=
  mkHost
    [("Notification", VFun (FNative "Notification") modern_notification []);
     ("external", VObj [])]
    [] None.

(** Internet Explorer 9 outside site mode. *)
Definition ie9_inactive_host : host :=
  mkHost
    [("external",
      VObj [("msIsSiteMode", VFun (FNative "msIsSiteMode") (VBool false) [])])]
    [] None.

(** ** Definitions: further properties of display and binding *)

Definition is_null (v : value) : bool :=
  match v with
  | VNull => true
  | _ => false
  end.

(** What lines 76 and 109 make of an [options.icon] that is not null: a
    non-empty string and [undefined] are kept, an object gives its [size]
    property, and anything else (the empty string, a number, a boolean)
    gives [undefined]. *)
Definition icon_value (icon : value) (size : string) : value :=
  match icon with
  | VStr str => if String.eqb str "" then VUndefined else VStr str
  | VObj l | VFun _ _ l => lookup size l
  | _ => VUndefined
  end.

(** The argument record of [new Notification] (lines 75-79). *)
Definition notification_options (o : props) : value :=
  VObj [("icon", icon_value (lookup "icon" o) "x32");
        ("body", lookup "body" o);
        ("tag", lookup "tag" o)].

Definition ev_show : event := EvCall "notification.show" [].

(** A legacy webkit browser on a page whose global [win] is the window. *)
Definition webkit_host_with_win (i : value) : host :=
  mkHost (webkit_window i) [] (Some (VObj (webkit_window i))).

Definition webkit_notification : value :=
  VObj [("show", VFun (FNative "show") VUndefined []);
        ("cancel", VFun (FNative "cancel") VUndefined []);
        ("addEventListener", VFun (FNative "addEventListener") VUndefined [])].

Definition ev_win_msIsSiteMode : event := EvCall "win.external.msIsSiteMode" [].
Definition ev_activate : event := EvCall "w.external.msSiteModeActivate" [].

(** One registration of a listener on the global [notification]. *)
Definition listener_event (type : string) (l : arg) : event :=
  EvCall "notification.addEventListener" [AVal (VStr type); l].

(** The registration of one callback slot, if it holds a function. *)
Definition slot_registration (o : props) (slot type : string) : list event :=
  if isFunction (lookup slot o)
  then [listener_event type (AVal (lookup slot o))]
  else [].

(** The registrations lines 137-165 make for an options object, in order:
    the auto-close listener when [timeout] is truthy, then [onShow],
    [onError], [onClick], and [onClose] under both of its event names. *)
Definition registrations (o : props) : list event :=
  (if truthy (lookup "timeout" o)
   then [listener_event "show" (AClosure (CShowListener (VObj o)))]
   else [])
  ++ slot_registration o "onShow" "show"
  ++ slot_registration o "onError" "error"
  ++ slot_registration o "onClick" "click"
  ++ slot_registration o "onClose" "close"
  ++ slot_registration o "onClose" "cancel".

Definition ev_setTimeout (delay : value) : event :=
  EvCall "setTimeout" [AClosure CTimer; AVal delay].

(** The host shows the notification and later lets the timer expire: the
    [show] listener of lines 142-148 runs, then the function it scheduled. *)
Definition show_then_expire (h : host) (o : props) : M value :=
  run_closure h (CShowListener (VObj o)) [] ;;;
  run_closure h CTimer [].

(** A notification object with event registration and nothing to close it
    by. *)
Definition unclosable_notification : value :=
  VObj [("addEventListener", VFun (FNative "addEventListener") VUndefined [])].

Definition unclosable_host : host :=
  mkHost
    [("Notification",
      VFun (FNative "Notification") unclosable_notification [])]
    [] None.

(** A browser with both the legacy object and the [Notification]
    constructor. *)
Definition dual_host : host :=
  mkHost
    (("Notification",
      VFun (FNative "Notification") modern_notification
        [("permission", DEFAULT);
         ("requestPermission",
          VFun (FNative "requestPermission") VUndefined [])])
     :: webkit_window (VNum 1))
    [] None.

(** * Properties *)

(** ** Capability probe *)

Lemma siteMode_test_result (h : host) (s : state) :
  fst (siteMode_test h s) = fst (siteMode_test h init_state).
Proof.
  unfold siteMode_test, bind, js_and, W, get_prop, ret, call, emit, throw.
  destruct (truthy (lookup "external" (w h))); [|reflexivity].
  destruct (lookup "external" (w h)); try reflexivity;
  match goal with
  | |- context [lookup "msIsSiteMode" ?l] =>
      destruct (lookup "msIsSiteMode" l) as [| | | | | |[]]; reflexivity
  end.
Qed.

Lemma isSupported_probe_result (h : host) (s : state) :
  fst (isSupported_probe h s) = Ok (isSupported h).
Proof.
  unfold isSupported, isSupported_probe, isSupported_expr.
  unfold bind, js_or, W, Navigator, get_prop, ret.
  destruct (truthy (lookup "Notification" (w h))) eqn:E1;
    [simpl; rewrite E1; reflexivity|].
  destruct (truthy (lookup "webkitNotifications" (w h))) eqn:E2;
    [simpl; rewrite E2; reflexivity|].
  destruct (truthy (lookup "mozNotification" (navigator h))) eqn:E3;
    [simpl; rewrite E3; reflexivity|].
  pose proof (siteMode_test_result h s) as E.
  destruct (siteMode_test h s) as [r s'], (siteMode_test h init_state) as [r0 s0].
  simpl in E. subst r0. destruct r; reflexivity.
Qed.

(** C7.  [isSupported] is true exactly when one of the four variant
    detectors (Notification, webkitNotifications, mozNotification,
    msIsSiteMode) matches; and the probe never raises, whatever the state it
    runs in and even when a detector raises: it then answers [false] unless
    an earlier detector matched. *)
Theorem isSupported_iff_some_detector_matches (h : host) :
  (isSupported h = true <->
   existsb (detector_matches h) variant_detectors = true)
  /\ (forall s, exists s', isSupported_probe h s = (Ok (isSupported h), s'))
  /\ (existsb (detector_matches h) variant_detectors = false ->
      existsb (detector_throws h) variant_detectors = true ->
      isSupported h = false).
Proof.
  assert (I : isSupported h = existsb (detector_matches h) variant_detectors).
  { unfold isSupported, isSupported_probe, isSupported_expr, variant_detectors.
    unfold existsb, detector_matches, detect_Notification,
      detect_webkitNotifications, detect_mozNotification, detect_msIsSiteMode.
    unfold bind, js_or, W, Navigator, get_prop, ret.
    destruct (truthy (lookup "Notification" (w h))) eqn:E1;
      [simpl; rewrite E1; reflexivity|].
    destruct (truthy (lookup "webkitNotifications" (w h))) eqn:E2;
      [simpl; rewrite E1, E2; reflexivity|].
    destruct (truthy (lookup "mozNotification" (navigator h))) eqn:E3;
      [simpl; rewrite E1, E2, E3; reflexivity|].
    simpl. rewrite E1, E2, E3.
    destruct (siteMode_test h init_state) as [[v|e] s']; simpl;
      rewrite ?orb_false_r; reflexivity. }
  split; [rewrite I; tauto|]. split.
  - intro s. pose proof (isSupported_probe_result h s) as E.
    destruct (isSupported_probe h s) as [r s']. simpl in E. subst r.
    exists s'. reflexivity.
  - intros N _. rewrite I. exact N.
Qed.

Lemma isSupported_iff_some_detector_matches_witness :
  existsb (detector_matches throwing_probe_host) variant_detectors = false
  /\ existsb (detector_throws throwing_probe_host) variant_detectors = true
  /\ isSupported throwing_probe_host = false.
Proof.
  split; [reflexivity|]. split; [reflexivity|].
  apply (isSupported_iff_some_detector_matches throwing_probe_host); reflexivity.
Defined.

(** ** The facade [create] *)

(** C9.  In an unsupported environment [create] emits exactly one diagnostic
    on the console and returns normally: nothing is constructed, the
    permission is neither queried nor requested, and the globals are left as
    they were. *)
Theorem create_unsupported_only_reports
    (h : host) (title options : value) (s : state) :
  isSupported h = false ->
  create (Push_new h) h title options s =
    (Ok VUndefined,
     mkState (g_notification s) (g_wrapper s)
       (trace s ++ [EvCall "console.error" [AVal (VStr incompatible_message)]])).
Proof.
  intro U. unfold create, Push_new. cbn [self_isSupported]. rewrite U.
  reflexivity.
Qed.

Lemma create_unsupported_only_reports_witness :
  isSupported bare_host = false
  /\ create (Push_new bare_host) bare_host (VStr "Hi")
       (VObj [("body", VStr "there")]) init_state =
     (Ok VUndefined,
      mkState None false
        [EvCall "console.error" [AVal (VStr incompatible_message)]]).
Proof.
  split; [reflexivity|].
  apply (create_unsupported_only_reports bare_host (VStr "Hi")
           (VObj [("body", VStr "there")]) init_state).
  reflexivity.
Defined.

(** C2.  When the environment is supported and [Permission.get()] returns
    [granted], [create] does nothing more than that query: the [if] of line
    298 has no other branch, so neither the display step nor the binding step
    runs. *)
Theorem create_granted_displays_nothing
    (self : Push) (h : host) (title options : value) (s s1 : state) :
  self_isSupported self = true ->
  Permission_get self h s = (Ok GRANTED, s1) ->
  create self h title options s = (Ok VUndefined, s1).
Proof.
  intros S G. unfold create. rewrite S. cbn [negb].
  unfold bind at 1. rewrite G. reflexivity.
Qed.

Lemma create_granted_displays_nothing_witness :
  self_isSupported (Push_new (modern_host GRANTED)) = true
  /\ Permission_get (Push_new (modern_host GRANTED)) (modern_host GRANTED)
       init_state = (Ok GRANTED, init_state)
  /\ create (Push_new (modern_host GRANTED)) (modern_host GRANTED)
       (VStr "Hi") (VObj [("body", VStr "hello"); ("tag", VStr "t1")])
       init_state = (Ok VUndefined, init_state).
Proof.
  split; [reflexivity|]. split; [reflexivity|].
  apply (create_granted_displays_nothing (Push_new (modern_host GRANTED))
           (modern_host GRANTED) (VStr "Hi")
           (VObj [("body", VStr "hello"); ("tag", VStr "t1")])
           init_state init_state); reflexivity.
Defined.

(** C1.  On a modern browser whose permission is [default], [create] issues
    one permission request and constructs nothing itself.  The continuation
    it hands over takes no account of the answer: run by the host with any
    result [res] (so also [denied]) while [Permission.get()] is [denied], it
    constructs the notification all the same. *)
Theorem create_continuation_ignores_denial (title body res : value) (s : state) :
  let options := VObj [("body", body)] in
  create (Push_new (modern_host DEFAULT)) (modern_host DEFAULT) title options
    init_state =
    (Ok VUndefined,
     mkState None false
       [EvCall "w.Notification.requestPermission"
          [AClosure (CCreate title options)]])
  /\ Permission_get (Push_new (modern_host DENIED)) (modern_host DENIED) s =
       (Ok DENIED, s)
  /\ run_closure (modern_host DENIED) (CCreate title options) [res] s =
       (Ok VUndefined,
        mkState (Some modern_notification) true
          (trace s ++
           [EvNew "w.Notification"
              [AVal title;
               AVal (VObj [("icon", VUndefined); ("body", body);
                           ("tag", VUndefined)])]])).
Proof.
  repeat split.
Qed.

(** When the permission is not granted, [create] is the permission query
    followed by exactly one call of [Permission.request], with the
    continuation of lines 299-301. *)
Lemma create_not_granted_requests
    (self : Push) (h : host) (title options p : value) (s s1 : state) :
  self_isSupported self = true ->
  Permission_get self h s = (Ok p, s1) ->
  strict_eq_str p "granted" = false ->
  create self h title options s =
    match Permission_request self h (AClosure (CCreate title options)) s1 with
    | (Ok _, s2) => (Ok VUndefined, s2)
    | (Throw e, s2) => (Throw e, s2)
    end.
Proof.
  intros S G N. unfold create. rewrite S. cbn [negb].
  unfold bind at 1. rewrite G, N. cbn [negb]. unfold bind, ret.
  destruct (Permission_request self h (AClosure (CCreate title options)) s1)
    as [[v|e] s2]; reflexivity.
Qed.

(** ** Permission.get *)

(** [a && a.k] is truthy exactly when [host_prop a k] is. *)
Lemma js_and_prop (a : value) (k : string) (s : state) :
  js_and a (get_prop a k) s =
    (Ok (if truthy a then host_prop a k else a), s).
Proof.
  unfold js_and. destruct a as [| |[]|n|str|l|f r l]; cbn; try reflexivity.
  - destruct (negb (n =? 0)); reflexivity.
  - destruct (negb (str =? "")%string); reflexivity.
Qed.

Lemma truthy_host_prop (a : value) (k : string) :
  truthy (if truthy a then host_prop a k else a) = truthy (host_prop a k).
Proof.
  destruct (truthy a) eqn:E; [reflexivity|].
  rewrite E. destruct a; try reflexivity; discriminate.
Qed.

Lemma get_prop_truthy (a : value) (k : string) (s : state) :
  truthy (host_prop a k) = true -> get_prop a k s = (Ok (host_prop a k), s).
Proof.
  destruct a; cbn; intro T; try discriminate; reflexivity.
Qed.

Lemma get_prop_of_truthy (a : value) (k : string) (s : state) :
  truthy a = true -> get_prop a k s = (Ok (host_prop a k), s).
Proof.
  destruct a; cbn; intro T; try discriminate; reflexivity.
Qed.

Lemma truthy_guarded (a : value) (k : string) :
  truthy (guarded a k) = truthy (host_prop a k).
Proof. apply truthy_host_prop. Qed.

(** [w.k1 && w.k1.k2], followed by the rest of the function. *)
Lemma guard_W {A} (h : host) (k1 k2 : string) (K : value -> M A) (s : state) :
  bind (get_prop (W h) k1)
    (fun n => bind (js_and n (bind (get_prop (W h) k1)
                                (fun n' => get_prop n' k2))) K) s =
  K (guarded (lookup k1 (w h)) k2) s.
Proof.
  unfold bind at 1. cbn [W get_prop ret]. unfold bind at 1.
  assert (E : js_and (lookup k1 (w h))
                (bind (ret (lookup k1 (w h))) (fun n' => get_prop n' k2)) s =
              (Ok (guarded (lookup k1 (w h)) k2), s))
    by exact (js_and_prop _ _ _).
  rewrite E. reflexivity.
Qed.

(** [w.k1.k2] once the guard has passed, followed by the rest. *)
Lemma read_W_prop {A} (h : host) (k1 k2 : string) (K : value -> M A) (s : state) :
  truthy (host_prop (lookup k1 (w h)) k2) = true ->
  bind (get_prop (W h) k1) (fun n' => bind (get_prop n' k2) K) s =
  K (host_prop (lookup k1 (w h)) k2) s.
Proof.
  intro T. unfold bind at 1. cbn [W get_prop ret]. unfold bind.
  rewrite (get_prop_truthy _ _ _ T). reflexivity.
Qed.

Lemma read_W_prop_last (h : host) (k1 k2 : string) (s : state) :
  truthy (host_prop (lookup k1 (w h)) k2) = true ->
  bind (get_prop (W h) k1) (fun n' => get_prop n' k2) s =
  (Ok (host_prop (lookup k1 (w h)) k2), s).
Proof.
  intro T. unfold bind at 1. cbn [W get_prop ret].
  apply (get_prop_truthy _ _ _ T).
Qed.

(** The site-mode test is truthy only if [window.external] is. *)
Lemma siteMode_test_truthy (h : host) (s s' : state) (c : value) :
  siteMode_test h s = (Ok c, s') -> truthy c = true ->
  truthy (lookup "external" (w h)) = true.
Proof.
  unfold siteMode_test. unfold bind at 1. cbn [W get_prop ret].
  unfold js_and. destruct (truthy (lookup "external" (w h))) eqn:E;
    [reflexivity|].
  unfold ret. intros [= <- <-] T. congruence.
Qed.

(** [Permission.get] on a supported host, branch by branch. *)
Lemma Permission_get_supported (self : Push) (h : host) (s : state) :
  self_isSupported self = true ->
  Permission_get self h s =
    if truthy (signal_permissionLevel h) then (Ok (signal_permissionLevel h), s)
    else if truthy (signal_checkPermission h) then
      match call "w.webkitNotifications.checkPermission"
              (signal_checkPermission h) [] s with
      | (Ok i, s') => (Ok (Permissions_at i), s')
      | (Throw e, s') => (Throw e, s')
      end
    else if truthy (signal_permission h) then (Ok (signal_permission h), s)
    else if truthy (signal_mozNotification h) then (Ok Permissions_GRANTED, s)
    else
      match siteMode_test h s with
      | (Ok c, s') =>
          if truthy c then
            match call "w.external.msIsSiteMode" (signal_msIsSiteMode h) [] s' with
            | (Ok r, s'') => (Ok (if truthy r then GRANTED else DEFAULT), s'')
            | (Throw e, s'') => (Throw e, s'')
            end
          else (Ok VUndefined, s')
      | (Throw e, s') => (Throw e, s')
      end.
Proof.
  intro S. unfold Permission_get. rewrite S. cbn [negb].
  unfold signal_permissionLevel, signal_checkPermission, signal_permission,
    signal_mozNotification, signal_msIsSiteMode.
  rewrite guard_W, truthy_guarded.
  destruct (truthy (host_prop (lookup "Notification" (w h)) "permissionLevel"))
    eqn:E1; [apply read_W_prop_last, E1|].
  rewrite guard_W, truthy_guarded.
  destruct (truthy (host_prop (lookup "webkitNotifications" (w h))
                      "checkPermission")) eqn:E2.
  { rewrite (read_W_prop h _ _ _ s E2). reflexivity. }
  rewrite guard_W, truthy_guarded.
  destruct (truthy (host_prop (lookup "Notification" (w h)) "permission"))
    eqn:E3; [apply read_W_prop_last, E3|].
  unfold bind at 1. cbn [Navigator get_prop ret].
  destruct (truthy (lookup "mozNotification" (navigator h))) eqn:E4;
    [reflexivity|].
  unfold bind at 1.
  destruct (siteMode_test h s) as [[c|e] s'] eqn:E5; [|reflexivity].
  destruct (truthy c) eqn:E6; [|reflexivity].
  pose proof (siteMode_test_truthy h s s' c E5 E6) as E7.
  unfold bind at 1. cbn [W get_prop ret]. unfold bind at 1.
  rewrite (get_prop_of_truthy _ "msIsSiteMode" s' E7). reflexivity.
Qed.

Lemma permission_state_truthy (v : value) :
  is_permission_state v -> truthy v = true.
Proof. intros [-> | [-> | ->]]; reflexivity. Qed.

Lemma Permissions_at_state (i : Z) :
  0 <= i < 3 -> is_permission_state (Permissions_at (VNum i)).
Proof.
  intro R. assert (C : i = 0 \/ i = 1 \/ i = 2) by lia.
  unfold is_permission_state.
  destruct C as [-> | [-> | ->]]; cbn; auto.
Qed.

Lemma siteMode_test_native
    (h : host) (s : state) (label : string) (r : value) (l : props) :
  truthy (lookup "external" (w h)) = true ->
  signal_msIsSiteMode h = VFun (FNative label) r l ->
  siteMode_test h s =
    (Ok (VBool (strict_neq_undefined r)),
     mkState (g_notification s) (g_wrapper s)
       (trace s ++ [EvCall "w.external.msIsSiteMode" []])).
Proof.
  intros T E. unfold siteMode_test. unfold bind at 1. cbn [W get_prop ret].
  unfold js_and. rewrite T. unfold bind at 1. cbn [get_prop ret].
  unfold bind at 1. rewrite (get_prop_of_truthy _ "msIsSiteMode" s T).
  fold (signal_msIsSiteMode h). rewrite E. reflexivity.
Qed.

(** C3, as the code has it.  [Permission.get()] returns [undefined] whenever
    [isSupported] is false.  When [isSupported] is true and the permission
    signal of the active variant is present and well formed
    ([Notification.permissionLevel] or [Notification.permission] holding one
    of the three states, [webkitNotifications.checkPermission()] returning 0,
    1 or 2, or the site-mode test answering), it returns one of [granted],
    [default], [denied] without raising.  A supported host with no permission
    signal yields [undefined], not [default]. *)
Theorem Permission_get_states (h : host) (s : state) :
  (isSupported h = false ->
   Permission_get (Push_new h) h s = (Ok VUndefined, s))
  /\ (isSupported h = true -> wellformed_signal h ->
      exists p s', Permission_get (Push_new h) h s = (Ok p, s')
                   /\ is_permission_state p)
  /\ (isSupported h = true -> no_signal h ->
      Permission_get (Push_new h) h s = (Ok VUndefined, s)).
Proof.
  split; [|split].
  - intro U. unfold Permission_get, Push_new. cbn [self_isSupported].
    rewrite U. reflexivity.
  - intros S WF. rewrite (Permission_get_supported (Push_new h) h s S).
    destruct WF as [P | label i l E1 E2 R | E1 E2 P | label r l E1 E2 E3 E4 E5 E6 NU].
    + rewrite (permission_state_truthy _ P). eauto.
    + rewrite E1, E2. cbn. eexists; eexists; split; [reflexivity|].
      apply Permissions_at_state, R.
    + rewrite E1, E2, (permission_state_truthy _ P). eauto.
    + rewrite E1, E2, E3, E4, (siteMode_test_native h s label r l E5 E6), E6.
      assert (N : strict_neq_undefined r = true)
        by (destruct r; try reflexivity; congruence).
      rewrite N. cbn. eexists; eexists; split; [reflexivity|].
      unfold is_permission_state. destruct (truthy r); auto.
  - intros S (E1 & E2 & E3 & E4 & E5).
    rewrite (Permission_get_supported (Push_new h) h s S), E1, E2, E3, E4.
    unfold siteMode_test. unfold bind at 1. cbn [W get_prop ret].
    unfold js_and. rewrite E5. unfold ret. rewrite E5. reflexivity.
Qed.

Lemma Permission_get_states_witness :
  (isSupported bare_host = false
   /\ Permission_get (Push_new bare_host) bare_host init_state =
        (Ok VUndefined, init_state))
  /\ (isSupported (modern_host DENIED) = true
      /\ wellformed_signal (modern_host DENIED)
      /\ exists p s',
           Permission_get (Push_new (modern_host DENIED)) (modern_host DENIED)
             init_state = (Ok p, s')
           /\ is_permission_state p)
  /\ (isSupported silent_host = true
      /\ no_signal silent_host
      /\ Permission_get (Push_new silent_host) silent_host init_state =
           (Ok VUndefined, init_state)).
Proof.
  assert (WF : wellformed_signal (modern_host DENIED)).
  { apply wf_permission; try reflexivity.
    right; right; reflexivity. }
  assert (NS : no_signal silent_host) by (repeat split).
  split; [|split].
  - split; [reflexivity|].
    apply (proj1 (Permission_get_states bare_host init_state)). reflexivity.
  - split; [reflexivity|]. split; [exact WF|].
    apply (proj1 (proj2 (Permission_get_states (modern_host DENIED) init_state)));
      [reflexivity | exact WF].
  - split; [reflexivity|]. split; [exact NS|].
    apply (proj2 (proj2 (Permission_get_states silent_host init_state)));
      [reflexivity | exact NS].
Defined.

(** The specification's wording fails on [silent_host]: the host is
    supported, yet the answer is [undefined], which is none of the three
    states and in particular not [default]. *)
Lemma Permission_get_undefined_on_supported_host :
  isSupported silent_host = true
  /\ Permission_get (Push_new silent_host) silent_host init_state =
       (Ok VUndefined, init_state)
  /\ ~ is_permission_state VUndefined
  /\ ~ (forall h s,
          isSupported h = true ->
          exists p s', Permission_get (Push_new h) h s = (Ok p, s')
                       /\ is_permission_state p).
Proof.
  assert (N : ~ is_permission_state VUndefined)
    by (intros [E | [E | E]]; discriminate E).
  split; [reflexivity|]. split; [reflexivity|]. split; [exact N|].
  intro C. destruct (C silent_host init_state eq_refl) as (p & s' & E & P).
  cbv in E. injection E as <- _. exact (N P).
Qed.

(** On Firefox Mobile line 236 reads [Permissions.GRANTED], a property the
    array does not have. *)
Lemma Permission_get_mozNotification (s : state) :
  isSupported moz_host = true
  /\ Permission_get (Push_new moz_host) moz_host s = (Ok VUndefined, s).
Proof. split; reflexivity. Qed.

(** ** Permission.request *)

Lemma host_prop_truthy_base (a : value) (k : string) :
  truthy (host_prop a k) = true -> truthy a = true.
Proof. destruct a; cbn; intro T; try discriminate; reflexivity. Qed.

Lemma read_W_prop_other {A}
    (h : host) (k1 k2 : string) (K : value -> M A) (s : state) :
  truthy (lookup k1 (w h)) = true ->
  bind (get_prop (W h) k1) (fun n' => bind (get_prop n' k2) K) s =
  K (host_prop (lookup k1 (w h)) k2) s.
Proof.
  intro T. unfold bind at 1. cbn [W get_prop ret]. unfold bind.
  rewrite (get_prop_of_truthy _ _ _ T). reflexivity.
Qed.

(** [Permission.request] on a supported host, branch by branch. *)
Lemma Permission_request_supported
    (self : Push) (h : host) (callback : arg) (s : state) :
  self_isSupported self = true ->
  Permission_request self h callback s =
    match request_target h with
    | Some (site, f) =>
        match call site f [normalize_callback callback] s with
        | (Ok _, s') => (Ok VUndefined, s')
        | (Throw e, s') => (Throw e, s')
        end
    | None => (Ok VUndefined, s)
    end.
Proof.
  intro S. unfold Permission_request, request_target. rewrite S. cbn [negb].
  unfold signal_checkPermission, signal_requestPermission.
  rewrite guard_W, truthy_guarded.
  destruct (truthy (host_prop (lookup "webkitNotifications" (w h))
                      "checkPermission")) eqn:E1.
  { rewrite (read_W_prop_other h _ _ _ s (host_prop_truthy_base _ _ E1)).
    unfold bind, ret.
    destruct (call _ _ _ s) as [[v|e] s']; reflexivity. }
  rewrite guard_W, truthy_guarded.
  destruct (truthy (host_prop (lookup "Notification" (w h))
                      "requestPermission")) eqn:E2; [|reflexivity].
  rewrite (read_W_prop h _ _ _ s E2). unfold bind, ret.
  destruct (call _ _ _ s) as [[v|e] s']; reflexivity.
Qed.

Lemma call_trace (site : string) (f : value) (args : list arg) (s : state) :
  g_notification (snd (call site f args s)) = g_notification s
  /\ g_wrapper (snd (call site f args s)) = g_wrapper s
  /\ (trace (snd (call site f args s)) = trace s
      \/ trace (snd (call site f args s)) =
           (trace s ++ [EvCall site args])%list).
Proof.
  destruct f as [| | | | | |[lbl|lbl] r l]; cbn; auto.
Qed.

Lemma call_native (site label : string) (r : value) (l : props)
    (args : list arg) (s : state) :
  call site (VFun (FNative label) r l) args s =
    (Ok r, mkState (g_notification s) (g_wrapper s)
             (trace s ++ [EvCall site args])).
Proof. reflexivity. Qed.

Lemma request_target_site (h : host) (site : string) (f : value) :
  request_target h = Some (site, f) ->
  site = "w.webkitNotifications.requestPermission"
  \/ site = "w.Notification.requestPermission".
Proof.
  unfold request_target.
  destruct (truthy (signal_checkPermission h)); [intros [= <- _]; auto|].
  destruct (truthy (signal_requestPermission h)); [intros [= <- _]; auto|].
  discriminate.
Qed.

(** C6, as the code has it.  On a supported host [Permission.request]
    replaces an argument that is not a function by a no-op and hands the
    resulting callback, exactly once, to one native [requestPermission]: the
    one of [webkitNotifications] when that object has [checkPermission], else
    the one of [Notification] when it has one.  It never calls the callback
    itself.  On a host with neither (the binary variants, Firefox Mobile and
    the site-mode overlay) it does nothing at all, so the callback is never
    invoked. *)
Theorem Permission_request_dispatch
    (self : Push) (h : host) (callback : arg) (s : state) :
  self_isSupported self = true ->
  isFunction_arg (normalize_callback callback) = true
  /\ (isFunction_arg callback = true -> normalize_callback callback = callback)
  /\ (isFunction_arg callback = false ->
      normalize_callback callback = AClosure CNoop)
  /\ (request_target h = None ->
      Permission_request self h callback s = (Ok VUndefined, s))
  /\ (forall site label r l,
        request_target h = Some (site, VFun (FNative label) r l) ->
        Permission_request self h callback s =
          (Ok VUndefined,
           mkState (g_notification s) (g_wrapper s)
             (trace s ++ [EvCall site [normalize_callback callback]])))
  /\ (exists r s',
        Permission_request self h callback s = (r, s')
        /\ g_notification s' = g_notification s
        /\ g_wrapper s' = g_wrapper s
        /\ (trace s' = trace s
            \/ exists site,
                 (site = "w.webkitNotifications.requestPermission"
                  \/ site = "w.Notification.requestPermission")
                 /\ trace s' =
                      (trace s ++ [EvCall site [normalize_callback callback]])%list)).
Proof.
  intro S. pose proof (Permission_request_supported self h callback s S) as R.
  repeat split.
  - unfold normalize_callback.
    destruct (isFunction_arg callback) eqn:E; [exact E | reflexivity].
  - intro E. unfold normalize_callback. rewrite E. reflexivity.
  - intro E. unfold normalize_callback. rewrite E. reflexivity.
  - intro N. rewrite R, N. reflexivity.
  - intros site label r l T. rewrite R, T. reflexivity.
  - rewrite R. destruct (request_target h) as [[site f]|] eqn:T.
    + pose proof (call_trace site f [normalize_callback callback] s)
        as (G & Wr & Tr).
      destruct (call site f [normalize_callback callback] s) as [[v|e] s'];
        cbn [snd] in *;
        (eexists; eexists; split; [reflexivity|];
         split; [exact G|]; split; [exact Wr|];
         destruct Tr as [Tr|Tr]; [left; exact Tr|];
         right; exists site; split;
         [exact (request_target_site h site f T) | exact Tr]).
    + eexists; eexists; split; [reflexivity|]. auto.
Qed.

Lemma Permission_request_dispatch_witness :
  self_isSupported (Push_new (modern_host DEFAULT)) = true
  /\ request_target (modern_host DEFAULT) =
       Some ("w.Notification.requestPermission",
             VFun (FNative "requestPermission") VUndefined [])
  /\ Permission_request (Push_new (modern_host DEFAULT)) (modern_host DEFAULT)
       (AVal (VNum 7)) init_state =
       (Ok VUndefined,
        mkState None false
          [EvCall "w.Notification.requestPermission" [AClosure CNoop]]).
Proof.
  split; [reflexivity|]. split; [reflexivity|].
  apply (proj1 (proj2 (proj2 (proj2 (proj2
           (Permission_request_dispatch (Push_new (modern_host DEFAULT))
              (modern_host DEFAULT) (AVal (VNum 7)) init_state eq_refl)))))
           "w.Notification.requestPermission" "requestPermission"
           VUndefined []).
  reflexivity.
Defined.

(** The specification's wording fails on Firefox Mobile, a binary
    variant: the host is supported, and the request returns without
    the callback having been called or handed to anything. *)
Lemma Permission_request_binary_variant_drops_callback :
  isSupported moz_host = true
  /\ fst (Permission_request (Push_new moz_host) moz_host
            (AVal (page_callback "onGranted")) init_state) = Ok VUndefined
  /\ trace (snd (Permission_request (Push_new moz_host) moz_host
                   (AVal (page_callback "onGranted")) init_state)) = []
  /\ ~ handed_over (AVal (page_callback "onGranted"))
         (trace (snd (Permission_request (Push_new moz_host) moz_host
                        (AVal (page_callback "onGranted")) init_state))).
Proof.
  split; [reflexivity|]. split; [reflexivity|]. split; [reflexivity|].
  intros (site & args & I & _). exact I.
Qed.

(** ** The close operation of the handle *)

Lemma get_prop_nullish (a : value) (k : string) (s : state) :
  get_prop a k s =
    if nullish a then (Throw TypeError, s) else (Ok (host_prop a k), s).
Proof. destruct a; reflexivity. Qed.

(** [wrapper.close()], branch by branch. *)
Lemma wrapper_close_cases (h : host) (s : state) :
  wrapper_close h s =
    match g_notification s with
    | None => (Throw ReferenceError, s)
    | Some n =>
        if nullish n then (Throw TypeError, s)
        else if truthy (host_prop n "close") then
          call_stmt "notification.close" (host_prop n "close") [] s
        else if truthy (host_prop n "cancel") then
          call_stmt "notification.cancel" (host_prop n "cancel") [] s
        else close_siteMode h s
    end.
Proof.
  unfold wrapper_close, call_stmt. unfold bind at 1. unfold read_notification at 1.
  destruct (g_notification s) as [n|] eqn:G; [|reflexivity].
  unfold bind at 1. rewrite get_prop_nullish.
  destruct (nullish n) eqn:N; [reflexivity|].
  destruct (truthy (host_prop n "close")) eqn:C.
  { unfold bind at 1. unfold read_notification at 1. rewrite G.
    unfold bind at 1. rewrite get_prop_nullish, N.
    unfold bind, ret. destruct (call _ _ _ s) as [[v|e] s']; reflexivity. }
  unfold bind at 1. unfold read_notification at 1. rewrite G.
  unfold bind at 1. rewrite get_prop_nullish, N.
  destruct (truthy (host_prop n "cancel")) eqn:C'; [|reflexivity].
  unfold bind at 1. unfold read_notification at 1. rewrite G.
  unfold bind at 1. rewrite get_prop_nullish, N.
  unfold bind, ret. destruct (call _ _ _ s) as [[v|e] s']; reflexivity.
Qed.

Lemma extends_by_nil (s : state) : extends_by s s [].
Proof. unfold extends_by. rewrite app_nil_r. auto. Qed.

Lemma call_stmt_effect (site : string) (f : value) (args : list arg) (s : state) :
  exists l, extends_by s (snd (call_stmt site f args s)) l
            /\ (l = [] \/ l = [EvCall site args]).
Proof.
  unfold call_stmt.
  destruct f as [| | | | | |[lbl|lbl] r pl]; cbn;
    first [ exists []; split; [apply extends_by_nil | auto]
          | exists [EvCall site args]; split; [repeat split | auto] ].
Qed.

Lemma call_stmt_native (site label : string) (r : value) (l : props)
    (args : list arg) (s : state) :
  call_stmt site (VFun (FNative label) r l) args s =
    (Ok VUndefined,
     mkState (g_notification s) (g_wrapper s) (trace s ++ [EvCall site args])).
Proof. reflexivity. Qed.

(** The guard of line 129 reads properties only. *)
Lemma close_guard_pure (h : host) (ext : value) (s : state) :
  snd (js_and ext (wn <- read_win h ;;
                   e <- get_prop wn "external" ;;
                   get_prop e "msIsSiteMode") s) = s.
Proof.
  unfold js_and. destruct (truthy ext); [|reflexivity].
  unfold bind, read_win. destruct (win h) as [wn|]; [|reflexivity].
  cbn [ret]. rewrite get_prop_nullish.
  destruct (nullish wn); [reflexivity|].
  rewrite get_prop_nullish.
  destruct (nullish (host_prop wn "external")); reflexivity.
Qed.

Lemma close_siteMode_effect (h : host) (s : state) :
  exists l, extends_by s (snd (close_siteMode h s)) l
            /\ (l = [] \/ l = [EvCall "w.external.msSiteModeClearIconOverlay" []]).
Proof.
  unfold close_siteMode. unfold bind at 1. cbn [W get_prop ret].
  unfold bind at 1.
  pose proof (close_guard_pure h (lookup "external" (w h)) s) as P.
  destruct (js_and _ _ s) as [[c|e] s0]; cbn [snd] in P; subst s0;
    [|exists []; split; [apply extends_by_nil | auto]].
  destruct (truthy c); [|exists []; split; [apply extends_by_nil | auto]].
  unfold bind at 1. cbn [get_prop ret]. unfold bind at 1.
  rewrite get_prop_nullish.
  destruct (nullish (lookup "external" (w h)));
    [exists []; split; [apply extends_by_nil | auto]|].
  fold (call_stmt "w.external.msSiteModeClearIconOverlay"
          (host_prop (lookup "external" (w h)) "msSiteModeClearIconOverlay") [] s).
  apply call_stmt_effect.
Qed.

(** What one call of the handle's [close] can invoke: at most one native
    primitive, by a fixed priority: the [close] method of the native object
    if it has one, and then nothing else; otherwise its [cancel] method if it
    has one; otherwise nothing but the site-mode overlay clear.  [close] and
    [cancel] are never both invoked by one call.  This bounds the third leg
    and does not say that it clears the overlay; see
    [wrapper_close_overlay_leg]. *)
Theorem wrapper_close_dispatch (h : host) (s : state) :
  exists l,
    extends_by s (snd (wrapper_close h s)) l
    /\ (length l <= 1)%nat
    /\ ~ (In ev_close l /\ In ev_cancel l)
    /\ forall n, g_notification s = Some n ->
         (truthy (host_prop n "close") = true ->
          forall e, In e l -> e = ev_close)
         /\ (truthy (host_prop n "close") = false ->
             truthy (host_prop n "cancel") = true ->
             forall e, In e l -> e = ev_cancel)
         /\ (truthy (host_prop n "close") = false ->
             truthy (host_prop n "cancel") = false ->
             forall e, In e l -> e = ev_clear_overlay)
         /\ (forall label r pl,
               host_prop n "close" = VFun (FNative label) r pl ->
               l = [ev_close])
         /\ (forall label r pl,
               truthy (host_prop n "close") = false ->
               host_prop n "cancel" = VFun (FNative label) r pl ->
               l = [ev_cancel]).
Proof.
  assert (Short : forall (e0 : event) (l : list event),
             l = [] \/ l = [e0] ->
             (length l <= 1)%nat
             /\ (forall e, In e l -> e = e0)).
  { intros e0 l [-> | ->]; cbn; (split; [lia|]); intros e I.
    - destruct I.
    - destruct I as [<- | []]. reflexivity. }
  assert (Excl : forall (e0 : event) (l : list event),
             (forall e, In e l -> e = e0) -> (length l <= 1)%nat ->
             ~ (In ev_close l /\ In ev_cancel l)).
  { intros e0 l A _ [I1 I2]. apply A in I1, I2.
    rewrite <- I1 in I2. discriminate I2. }
  rewrite wrapper_close_cases.
  destruct (g_notification s) as [n|] eqn:G.
  - destruct (nullish n) eqn:N.
    { exists []. split; [apply extends_by_nil|]. split; [cbn; lia|].
      split; [intros [[] _]|]. intros n' [= <-].
      assert (C : host_prop n "close" = VUndefined)
        by (destruct n; try discriminate N; reflexivity).
      assert (C' : host_prop n "cancel" = VUndefined)
        by (destruct n; try discriminate N; reflexivity).
      rewrite C, C'. cbn.
      repeat split; intros; try easy. }
    destruct (truthy (host_prop n "close")) eqn:C.
    { destruct (call_stmt_effect "notification.close" (host_prop n "close") [] s)
        as (l & X & L).
      exists l. destruct (Short _ _ L) as [Len All].
      split; [exact X|]. split; [exact Len|].
      split; [exact (Excl _ _ All Len)|].
      intros n' [= <-]. rewrite C. repeat split; try discriminate.
      - intros _. exact All.
      - intros label r pl E. rewrite E, call_stmt_native in X.
        destruct X as (_ & _ & X). cbn [trace] in X.
        apply app_inv_head in X. symmetry. exact X. }
    destruct (truthy (host_prop n "cancel")) eqn:C'.
    { destruct (call_stmt_effect "notification.cancel" (host_prop n "cancel") [] s)
        as (l & X & L).
      exists l. destruct (Short _ _ L) as [Len All].
      split; [exact X|]. split; [exact Len|].
      split; [exact (Excl _ _ All Len)|].
      intros n' [= <-]. rewrite C, C'. repeat split; try discriminate.
      - intros _ _. exact All.
      - intros label r pl E. rewrite E in C. discriminate C.
      - intros label r pl _ E. rewrite E, call_stmt_native in X.
        destruct X as (_ & _ & X). cbn [trace] in X.
        apply app_inv_head in X. symmetry. exact X. }
    destruct (close_siteMode_effect h s) as (l & X & L).
    exists l. destruct (Short _ _ L) as [Len All].
    split; [exact X|]. split; [exact Len|].
    split; [exact (Excl _ _ All Len)|].
    intros n' [= <-]. rewrite C, C'. repeat split; try discriminate.
    + intros _ _. exact All.
    + intros label r pl E. rewrite E in C. discriminate C.
    + intros label r pl _ E. rewrite E in C'. discriminate C'.
  - exists []. split; [apply extends_by_nil|]. split; [cbn; lia|].
    split; [intros [[] _]|]. intros n [=].
Qed.

Lemma wrapper_close_dispatch_witness :
  exists l,
    extends_by (mkState (Some modern_notification) true [])
      (snd (wrapper_close bare_host (mkState (Some modern_notification) true [])))
      l
    /\ l = [ev_close].
Proof.
  destruct (wrapper_close_dispatch bare_host
              (mkState (Some modern_notification) true []))
    as (l & X & _ & _ & D).
  exists l. split; [exact X|].
  destruct (D modern_notification eq_refl) as (_ & _ & _ & Cl & _).
  apply (Cl "close" VUndefined []). reflexivity.
Defined.

Lemma with_events_app (s : state) (l1 l2 : list event) :
  with_events (with_events s l1) l2 = with_events s (l1 ++ l2).
Proof. unfold with_events. cbn. rewrite app_assoc. reflexivity. Qed.

Lemma with_events_nil (s : state) : with_events s [] = s.
Proof. destruct s. unfold with_events. cbn. rewrite app_nil_r. reflexivity. Qed.

(** One call on a native object with a callable primitive. *)
Lemma wrapper_close_native (h : host) (s : state) (n : value) :
  g_notification s = Some n ->
  (forall label r pl,
     host_prop n "close" = VFun (FNative label) r pl ->
     wrapper_close h s = (Ok VUndefined, with_events s [ev_close]))
  /\ (forall label r pl,
        truthy (host_prop n "close") = false ->
        host_prop n "cancel" = VFun (FNative label) r pl ->
        wrapper_close h s = (Ok VUndefined, with_events s [ev_cancel])).
Proof.
  intro G. rewrite wrapper_close_cases, G.
  split; intros label r pl.
  - intro E. assert (N : nullish n = false)
      by (destruct n; try reflexivity; discriminate E).
    rewrite N, E. reflexivity.
  - intros C E. assert (N : nullish n = false)
      by (destruct n; try reflexivity; discriminate E).
    rewrite N, C, E. reflexivity.
Qed.

(** One call on a native object without primitive, on a host without
    [window.external]. *)
Lemma wrapper_close_no_primitive (h : host) (s : state) (n : value) :
  g_notification s = Some n ->
  nullish n = false ->
  truthy (host_prop n "close") = false ->
  truthy (host_prop n "cancel") = false ->
  truthy (lookup "external" (w h)) = false ->
  wrapper_close h s = (Ok VUndefined, s).
Proof.
  intros G N C C' E. rewrite wrapper_close_cases, G, N, C, C'.
  unfold close_siteMode. unfold bind at 1. cbn [W get_prop ret].
  unfold bind at 1. unfold js_and. rewrite E. unfold ret. rewrite E.
  reflexivity.
Qed.

(** C4, as the code has it.  The handle's [close] returns normally when the
    native object has a callable [close] or [cancel] method, and is a no-op
    that returns normally when the object has neither and the host has no
    [window.external].  It keeps no record of an earlier call: every call
    dispatches again, so [k] calls in a row invoke the native primitive [k]
    times. *)
Theorem wrapper_close_repeats (h : host) (n : value) (k : nat) (s : state) :
  g_notification s = Some n ->
  (forall label r pl,
     host_prop n "close" = VFun (FNative label) r pl ->
     close_times h k s = (Ok VUndefined, with_events s (repeat ev_close k)))
  /\ (forall label r pl,
        truthy (host_prop n "close") = false ->
        host_prop n "cancel" = VFun (FNative label) r pl ->
        close_times h k s = (Ok VUndefined, with_events s (repeat ev_cancel k)))
  /\ (nullish n = false ->
      truthy (host_prop n "close") = false ->
      truthy (host_prop n "cancel") = false ->
      truthy (lookup "external" (w h)) = false ->
      close_times h k s = (Ok VUndefined, s)).
Proof.
  revert s. induction k as [|k IH]; intros s G.
  - cbn. rewrite with_events_nil. auto.
  - cbn [close_times repeat].
    destruct (wrapper_close_native h s n G) as [Cl Ca].
    split; [|split].
    + intros label r pl E. rewrite (Cl label r pl E).
      rewrite (proj1 (IH (with_events s [ev_close]) G) label r pl E).
      rewrite with_events_app. reflexivity.
    + intros label r pl C E. rewrite (Ca label r pl C E).
      rewrite (proj1 (proj2 (IH (with_events s [ev_cancel]) G)) label r pl C E).
      rewrite with_events_app. reflexivity.
    + intros N C C' E.
      rewrite (wrapper_close_no_primitive h s n G N C C' E).
      apply (proj2 (proj2 (IH s G)) N C C' E).
Qed.

Lemma wrapper_close_repeats_witness :
  g_notification (mkState (Some modern_notification) true []) =
    Some modern_notification
  /\ close_times bare_host 2 (mkState (Some modern_notification) true []) =
       (Ok VUndefined,
        mkState (Some modern_notification) true [ev_close; ev_close]).
Proof.
  split; [reflexivity|].
  apply (proj1 (wrapper_close_repeats bare_host modern_notification 2
                  (mkState (Some modern_notification) true []) eq_refl)
           "close" VUndefined []).
  reflexivity.
Defined.

(** The specification's wording fails on a modern notification: the second
    call of [close] invokes the native [close] a second time. *)
Lemma wrapper_close_second_call_invokes_again :
  trace closed_once = [ev_close]
  /\ trace closed_twice = [ev_close; ev_close]
  /\ trace closed_twice <> trace closed_once.
Proof.
  split; [reflexivity|]. split; [reflexivity|].
  cbn. discriminate.
Qed.

(** ** Lifecycle binding *)

Lemma option_slot_object (o : props) (slot : string) (s : state) :
  option_slot (VObj o) slot s = (Ok (AVal (lookup slot o)), s).
Proof. reflexivity. Qed.

(** Registering a listener on an object without [addEventListener] is a call
    of [undefined]. *)
Lemma addEventListener_missing
    (type : string) (listener : M arg) (a : arg) (n : value) (s : state) :
  g_notification s = Some n ->
  nullish n = false ->
  host_prop n "addEventListener" = VUndefined ->
  listener s = (Ok a, s) ->
  addEventListener type listener s = (Throw TypeError, s).
Proof.
  intros G N A L. unfold addEventListener.
  unfold bind at 1. unfold read_notification. rewrite G.
  unfold bind at 1. rewrite get_prop_nullish, N, A.
  unfold bind at 1. rewrite L. reflexivity.
Qed.

(** The timeout block is guarded: without [addEventListener] it does
    nothing. *)
Lemma bind_timeout_unsupported (options n : value) (s : state) :
  g_notification s = Some n ->
  truthy (host_prop n "addEventListener") = false ->
  bind_timeout options s = (Ok tt, s).
Proof.
  intros G A. unfold bind_timeout.
  unfold bind at 1. unfold read_notification at 1. rewrite G.
  unfold bind at 1. unfold js_and at 1.
  destruct (truthy n) eqn:T.
  - unfold bind at 1. unfold read_notification. rewrite G.
    unfold bind at 1. rewrite (get_prop_of_truthy n _ s T).
    unfold js_and. rewrite A. unfold ret. rewrite A. reflexivity.
  - unfold ret. rewrite T. reflexivity.
Qed.

(** C5.  On a notification object without event registration the timeout
    option is silently ignored, since line 139 tests for [addEventListener].
    The callback registrations of lines 153-165 have no such test: as soon as
    one of [onShow], [onError], [onClick], [onClose] is a function, binding
    calls the missing [addEventListener] and raises a TypeError.  Only with
    no callback at all does binding return normally. *)
Theorem lifecycle_bind_raises_without_events
    (o : props) (n : value) (s : state) :
  g_notification s = Some n ->
  nullish n = false ->
  host_prop n "addEventListener" = VUndefined ->
  bind_timeout (VObj o) s = (Ok tt, s)
  /\ (some_callback o = true ->
      lifecycle_bind (VObj o) s = (Throw TypeError, s))
  /\ (some_callback o = false ->
      lifecycle_bind (VObj o) s = (Ok tt, s)).
Proof.
  intros G N A.
  assert (T : bind_timeout (VObj o) s = (Ok tt, s)).
  { apply (bind_timeout_unsupported _ n); [exact G|]. rewrite A. reflexivity. }
  assert (R : forall type slot,
             addEventListener type (option_slot (VObj o) slot) s =
               (Throw TypeError, s)).
  { intros type slot.
    apply (addEventListener_missing type _ (AVal (lookup slot o)) n);
      auto using option_slot_object. }
  assert (E : lifecycle_bind (VObj o) s =
              if some_callback o then (Throw TypeError, s) else (Ok tt, s)).
  { unfold lifecycle_bind, some_callback. unfold bind at 1. rewrite T.
    unfold bind_callbacks.
    unfold bind at 1. cbn [get_prop ret].
    destruct (isFunction (lookup "onShow" o));
      [unfold bind at 1; rewrite R; reflexivity|].
    unfold bind at 1. cbn [ret]. unfold bind at 1. cbn [get_prop ret].
    destruct (isFunction (lookup "onError" o));
      [unfold bind at 1; rewrite R; reflexivity|].
    unfold bind at 1. cbn [ret]. unfold bind at 1. cbn [get_prop ret].
    destruct (isFunction (lookup "onClick" o));
      [unfold bind at 1; rewrite R; reflexivity|].
    unfold bind at 1. cbn [ret]. unfold bind at 1. cbn [get_prop ret].
    destruct (isFunction (lookup "onClose" o));
      [unfold bind at 1; rewrite R; reflexivity|].
    reflexivity. }
  split; [exact T|]. rewrite E.
  split; intros ->; reflexivity.
Qed.

(** The placeholder of the site-mode overlay (line 112) with an [onShow]
    callback. *)
Lemma lifecycle_bind_raises_without_events_witness :
  lifecycle_bind (VObj [("onShow", page_callback "onShow")])
    (mkState (Some (VObj [])) true []) =
    (Throw TypeError, mkState (Some (VObj [])) true []).
Proof.
  apply (proj1 (proj2 (lifecycle_bind_raises_without_events
                         [("onShow", page_callback "onShow")] (VObj [])
                         (mkState (Some (VObj [])) true [])
                         eq_refl eq_refl eq_refl))).
  reflexivity.
Defined.

(** The same on Firefox Mobile, through [create_callback]: the notification
    is created and shown, and binding the [onClick] callback raises. *)
Lemma create_callback_mozNotification_onClick :
  create_callback moz_host (VStr "Hi")
    (VObj [("body", VStr "there"); ("onClick", page_callback "onClick")])
    init_state =
    (Throw TypeError,
     mkState (Some moz_notification) true
       [EvCall "navigator.mozNotification.createNotification"
          [AVal (VStr "Hi"); AVal (VStr "there"); AVal VUndefined];
        EvCall "notification.show" []]).
Proof. reflexivity. Qed.

(** ** Display and icon resolution *)

(** Lines 76 and 109 on an options object. *)
Lemma resolve_icon_object (o : props) (size : string) (s : state) :
  resolve_icon (VObj o) size s =
    if isString (lookup "icon" o) || isUndefined (lookup "icon" o)
    then (Ok (lookup "icon" o), s)
    else get_prop (lookup "icon" o) size s.
Proof.
  unfold resolve_icon. unfold bind at 1. cbn [get_prop ret].
  destruct (isString (lookup "icon" o)); [reflexivity|].
  cbn [orb]. unfold bind at 1. unfold bind at 1. cbn [ret].
  destruct (isUndefined (lookup "icon" o)); reflexivity.
Qed.

(** C8.  Under the ModernNotification variant a sized icon record is
    resolved to its [x32] reference, which is what the constructor receives.
    Under the SiteModeOverlay variant on a page without a global [win], line
    105 raises a ReferenceError before the overlay is touched: no icon, [x16]
    or other, is passed. *)
Theorem display_sized_icon (title : value) (o : props) (s : state) :
  (forall h label r l sized,
     lookup "Notification" (w h) = VFun (FNative label) r l ->
     lookup "icon" o = VObj sized ->
     display h title (VObj o) s =
       (Ok tt,
        mkState (Some r) (g_wrapper s)
          (trace s ++
           [EvNew "w.Notification"
              [AVal title;
               AVal (VObj [("icon", lookup "x32" sized);
                           ("body", lookup "body" o);
                           ("tag", lookup "tag" o)])]])))
  /\ isSupported ie9_host = true
  /\ display ie9_host title (VObj o) s = (Throw ReferenceError, s).
Proof.
  split; [|split; reflexivity].
  intros h label r l sized N I. unfold display.
  unfold bind at 1. cbn [W get_prop ret]. rewrite N. cbn [truthy].
  unfold bind at 1. cbn [get_prop ret].
  unfold bind at 1. rewrite resolve_icon_object, I. cbn.
  reflexivity.
Qed.

Lemma display_sized_icon_witness :
  display (modern_host GRANTED) (VStr "Hi")
    (VObj [("icon", sized_icon); ("body", VStr "there")]) init_state =
    (Ok tt,
     mkState (Some modern_notification) false
       [EvNew "w.Notification"
          [AVal (VStr "Hi");
           AVal (VObj [("icon", VStr "icon32.png"); ("body", VStr "there");
                       ("tag", VUndefined)])]]).
Proof.
  apply (proj1 (display_sized_icon (VStr "Hi")
                  [("icon", sized_icon); ("body", VStr "there")] init_state)
           (modern_host GRANTED) "Notification" modern_notification
           [("permission", GRANTED);
            ("requestPermission",
             VFun (FNative "requestPermission") VUndefined [])]
           [("x32", VStr "icon32.png"); ("x16", VStr "icon16.png")]);
    reflexivity.
Defined.

(** With a global [win] bound to the window the site-mode branch runs and
    the overlay receives the [x16] reference. *)
Lemma display_siteMode_with_win :
  display ie9_host_with_win (VStr "Hi") (VObj [("icon", sized_icon)])
    init_state =
    (Ok tt,
     mkState (Some (VObj [])) false
       [EvCall "win.external.msIsSiteMode" [];
        EvCall "w.external.msSiteModeClearIconOverlay" [];
        EvCall "w.external.msSiteModeSetIconOverlay"
          [AVal (VStr "icon16.png"); AVal (VStr "Hi")];
        EvCall "w.external.msSiteModeActivate" []]).
Proof. reflexivity. Qed.

(** A string icon that is not empty, and an absent icon, go through
    unchanged; the empty string is falsy for [isString] and becomes
    [undefined]. *)
Lemma resolve_icon_plain (o : props) (size : string) (s : state) :
  (forall str, lookup "icon" o = VStr str -> str <> "" ->
     resolve_icon (VObj o) size s = (Ok (VStr str), s))
  /\ (lookup "icon" o = VUndefined ->
      resolve_icon (VObj o) size s = (Ok VUndefined, s))
  /\ (lookup "icon" o = VStr "" ->
      resolve_icon (VObj o) size s = (Ok VUndefined, s)).
Proof.
  rewrite resolve_icon_object. repeat split.
  - intros str -> NE. unfold isString. cbn.
    destruct (String.eqb_spec str ""); [contradiction | reflexivity].
  - intros ->. reflexivity.
  - intros ->. reflexivity.
Qed.

(** The site-mode handle: closing clears the overlay when the page has a
    global [win], and raises at line 129 when it has none. *)
Lemma wrapper_close_siteMode :
  wrapper_close ie9_host_with_win (mkState (Some (VObj [])) true []) =
    (Ok VUndefined, mkState (Some (VObj [])) true [ev_clear_overlay])
  /\ wrapper_close ie9_host (mkState (Some (VObj [])) true []) =
       (Throw ReferenceError, mkState (Some (VObj [])) true []).
Proof. split; reflexivity. Qed.

(** ** What the statements of [create] can do

    Whatever the host and the permission, the calls written in [create] and
    in the two permission functions it uses are the diagnostic, permission
    queries and one permission request. *)

Section FrameLemmas.

Variable allowed : list string.

Lemma within_refl (s : state) : within allowed s s.
Proof.
  repeat split. exists []. rewrite app_nil_r. auto.
Qed.

Lemma within_trans (s1 s2 s3 : state) :
  within allowed s1 s2 -> within allowed s2 s3 -> within allowed s1 s3.
Proof.
  intros (G1 & W1 & l1 & T1 & A1) (G2 & W2 & l2 & T2 & A2).
  repeat split; try congruence.
  exists (l1 ++ l2)%list. rewrite T2, T1, app_assoc, forallb_app, A1, A2.
  auto.
Qed.

Lemma stays_ret {A} (a : A) : stays_within allowed (ret a).
Proof. intro s. apply within_refl. Qed.

Lemma stays_throw {A} (e : error) : stays_within allowed (@throw A e).
Proof. intro s. apply within_refl. Qed.

Lemma stays_bind {A B} (m : M A) (k : A -> M B) :
  stays_within allowed m -> (forall a, stays_within allowed (k a)) ->
  stays_within allowed (bind m k).
Proof.
  intros Hm Hk s. unfold bind. specialize (Hm s).
  destruct (m s) as [[a|e] s1]; cbn [snd] in *; [|exact Hm].
  exact (within_trans _ _ _ Hm (Hk a s1)).
Qed.

Lemma stays_get_prop (o : value) (k : string) : stays_within allowed (get_prop o k).
Proof. destruct o; intro st; apply within_refl. Qed.

Lemma stays_js_and (a : value) (m : M value) :
  stays_within allowed m -> stays_within allowed (js_and a m).
Proof.
  intro Hm. unfold js_and. destruct (truthy a); [exact Hm|apply stays_ret].
Qed.

Lemma stays_emit (site : string) (args : list arg) :
  existsb (String.eqb site) allowed = true ->
  stays_within allowed (emit (EvCall site args)).
Proof.
  intros I s. repeat split. exists [EvCall site args]. cbn.
  rewrite I. auto.
Qed.

Lemma stays_call (site : string) (f : value) (args : list arg) :
  existsb (String.eqb site) allowed = true ->
  stays_within allowed (call site f args).
Proof.
  intro I. unfold call.
  destruct f as [| | | | | |[lbl|lbl] r l]; try apply stays_throw;
    (apply stays_bind; [apply stays_emit, I | intros _]);
    [apply stays_ret | apply stays_throw].
Qed.

End FrameLemmas.

Ltac stays_step :=
  match goal with
  | |- stays_within _ (bind _ _) => apply stays_bind; [|intro]
  | |- stays_within _ (ret _) => apply stays_ret
  | |- stays_within _ (throw _) => apply stays_throw
  | |- stays_within _ (get_prop _ _) => apply stays_get_prop
  | |- stays_within _ (js_and _ _) => apply stays_js_and
  | |- stays_within _ (call _ _ _) => apply stays_call; reflexivity
  | |- stays_within _ (emit _) => apply stays_emit; reflexivity
  | |- stays_within _ (if ?c then _ else _) => destruct c
  end.

(** The statements of [create], [Permission.get] and [Permission.request]
    construct nothing and assign no global: the only calls they make are the
    console diagnostic, the permission queries and a permission request.
    What a host function does with the continuation it is handed, be it
    before it returns, is not part of this. *)
Lemma create_constructs_nothing
    (self : Push) (h : host) (title options : value) :
  stays_within facade_sites (create self h title options).
Proof.
  unfold create, Permission_get, Permission_request, siteMode_test.
  repeat stays_step.
Qed.

(** ** Further properties of the permission adapter *)

(** X1.  On a supported host that offers no native [requestPermission]
    (Firefox Mobile, the site-mode overlay), [create] is nothing more than
    the permission query: whatever the answer, the continuation is handed to
    nobody and nothing is displayed. *)
Theorem create_without_native_request
    (self : Push) (h : host) (title options : value) (s : state) :
  self_isSupported self = true ->
  request_target h = None ->
  create self h title options s =
    match Permission_get self h s with
    | (Ok _, s1) => (Ok VUndefined, s1)
    | (Throw e, s1) => (Throw e, s1)
    end.
Proof.
  intros S N. unfold create. rewrite S. cbn [negb]. unfold bind at 1.
  destruct (Permission_get self h s) as [[p|e] s1]; [|reflexivity].
  destruct (negb (strict_eq_str p "granted")); [|reflexivity].
  unfold bind. rewrite (Permission_request_supported self h _ s1 S), N.
  reflexivity.
Qed.

Lemma create_without_native_request_witness :
  create (Push_new moz_host) moz_host (VStr "Hi")
    (VObj [("body", VStr "there")]) init_state = (Ok VUndefined, init_state).
Proof.
  apply (create_without_native_request (Push_new moz_host) moz_host
           (VStr "Hi") (VObj [("body", VStr "there")]) init_state);
    reflexivity.
Defined.

(** X2.  The legacy query: when [Notification.permissionLevel] is not set and
    [webkitNotifications.checkPermission] is a host function answering the
    number [i], [Permission.get] calls it once and answers [granted] for 0,
    [default] for 1, [denied] for 2 and [undefined] for any other number,
    whatever [Notification.permission] holds. *)
Theorem Permission_get_legacy_index
    (self : Push) (h : host) (s : state) (label : string) (i : Z) (l : props) :
  self_isSupported self = true ->
  truthy (signal_permissionLevel h) = false ->
  signal_checkPermission h = VFun (FNative label) (VNum i) l ->
  Permission_get self h s =
    (Ok (if i =? 0 then GRANTED
         else if i =? 1 then DEFAULT
         else if i =? 2 then DENIED
         else VUndefined),
     with_events s [ev_checkPermission]).
Proof.
  intros S E1 E2. rewrite (Permission_get_supported self h s S), E1, E2.
  cbn [truthy]. rewrite call_native. unfold with_events, ev_checkPermission.
  f_equal. f_equal. unfold Permissions_at.
  destruct (i =? 0) eqn:Z0; [apply Z.eqb_eq in Z0; subst; reflexivity|].
  destruct (i =? 1) eqn:Z1; [apply Z.eqb_eq in Z1; subst; reflexivity|].
  destruct (i =? 2) eqn:Z2; [apply Z.eqb_eq in Z2; subst; reflexivity|].
  apply Z.eqb_neq in Z0, Z1, Z2.
  destruct ((0 <=? i) && (i <? 3)) eqn:R; [|reflexivity].
  apply andb_true_iff in R. destruct R as [R1 R2].
  apply Z.leb_le in R1. apply Z.ltb_lt in R2. lia.
Qed.

Lemma Permission_get_legacy_index_witness :
  Permission_get (Push_new (webkit_host (VNum 2))) (webkit_host (VNum 2))
    init_state = (Ok DENIED, mkState None false [ev_checkPermission])
  /\ Permission_get (Push_new (webkit_host (VNum 3))) (webkit_host (VNum 3))
       init_state = (Ok VUndefined, mkState None false [ev_checkPermission]).
Proof.
  split.
  - apply (Permission_get_legacy_index (Push_new (webkit_host (VNum 2)))
             (webkit_host (VNum 2)) init_state "checkPermission" 2 []);
      reflexivity.
  - apply (Permission_get_legacy_index (Push_new (webkit_host (VNum 3)))
             (webkit_host (VNum 3)) init_state "checkPermission" 3 []);
      reflexivity.
Defined.

(** X3.  [Permission.get] only queries: on every host and in every state it
    leaves the globals alone, constructs nothing, and calls nothing but
    [checkPermission] and [msIsSiteMode]. *)
Theorem Permission_get_only_queries (self : Push) (h : host) :
  stays_within query_sites (Permission_get self h).
Proof.
  unfold Permission_get, siteMode_test. repeat stays_step.
Qed.

Lemma call_is_throw (site : string) (f : value) (args : list arg) (s : state) :
  is_throw (fst (call site f args s)) = negb (returns_normally f).
Proof. destruct f as [| | | | | |[lbl|lbl] r l]; reflexivity. Qed.

Lemma siteMode_test_is_throw (h : host) (s : state) :
  is_throw (fst (siteMode_test h s)) =
    truthy (lookup "external" (w h))
    && negb (returns_normally (signal_msIsSiteMode h)).
Proof.
  unfold siteMode_test. unfold bind at 1. cbn [W get_prop ret].
  unfold js_and. destruct (truthy (lookup "external" (w h))) eqn:E;
    [|reflexivity].
  unfold bind at 1. cbn [get_prop ret]. unfold bind at 1.
  rewrite (get_prop_of_truthy _ "msIsSiteMode" s E).
  fold (signal_msIsSiteMode h). unfold bind, ret.
  pose proof (call_is_throw "w.external.msIsSiteMode" (signal_msIsSiteMode h)
                [] s) as C.
  destruct (call _ _ _ s) as [[v|e] s']; exact C.
Qed.

(** X4.  On a supported host [Permission.get] raises in exactly two
    situations: the legacy branch is taken and [checkPermission] is not a
    function or raises, or no earlier signal is present, [window.external]
    exists and its [msIsSiteMode] is not a function or raises.  A successful
    capability probe does not rule either out. *)
Theorem Permission_get_raises_iff (self : Push) (h : host) (s : state) :
  self_isSupported self = true ->
  is_throw (fst (Permission_get self h s)) = get_raises h.
Proof.
  intro S. rewrite (Permission_get_supported self h s S). unfold get_raises.
  destruct (truthy (signal_permissionLevel h)); [reflexivity|].
  destruct (truthy (signal_checkPermission h)).
  { pose proof (call_is_throw "w.webkitNotifications.checkPermission"
                  (signal_checkPermission h) [] s) as C.
    destruct (call _ _ _ s) as [[v|e] s']; exact C. }
  destruct (truthy (signal_permission h)); [reflexivity|].
  destruct (truthy (signal_mozNotification h)); [reflexivity|].
  pose proof (siteMode_test_is_throw h s) as T.
  destruct (siteMode_test h s) as [[c|e] s'] eqn:E; cbn [fst is_throw] in T;
    [|exact T].
  destruct (truthy c) eqn:Tc; [|exact T].
  pose proof (siteMode_test_truthy h s s' c E Tc) as E7.
  rewrite E7 in T |- *. cbn [andb] in *.
  destruct (signal_msIsSiteMode h) as [| | | | | |[lbl|lbl] r l];
    try discriminate T; reflexivity.
Qed.

Lemma Permission_get_raises_iff_witness :
  isSupported broken_external_host = true
  /\ is_throw (fst (Permission_get (Push_new broken_external_host)
                      broken_external_host init_state)) = true.
Proof.
  split; [reflexivity|].
  rewrite (Permission_get_raises_iff (Push_new broken_external_host)
             broken_external_host init_state eq_refl).
  reflexivity.
Defined.

(** X5.  The site-mode query: when no other signal is present and
    [window.external.msIsSiteMode] is a host function answering [r],
    [Permission.get] answers [undefined] after one call if [r] is
    [undefined]; otherwise it calls the function a second time and answers
    [granted] if [r] is truthy and [default] if it is falsy. *)
Theorem Permission_get_siteMode
    (self : Push) (h : host) (s : state) (label : string) (r : value)
    (l : props) :
  self_isSupported self = true ->
  truthy (signal_permissionLevel h) = false ->
  truthy (signal_checkPermission h) = false ->
  truthy (signal_permission h) = false ->
  truthy (signal_mozNotification h) = false ->
  truthy (lookup "external" (w h)) = true ->
  signal_msIsSiteMode h = VFun (FNative label) r l ->
  Permission_get self h s =
    if isUndefined r then (Ok VUndefined, with_events s [ev_msIsSiteMode])
    else (Ok (if truthy r then GRANTED else DEFAULT),
          with_events s [ev_msIsSiteMode; ev_msIsSiteMode]).
Proof.
  intros S E1 E2 E3 E4 E5 E6.
  rewrite (Permission_get_supported self h s S), E1, E2, E3, E4.
  rewrite (siteMode_test_native h s label r l E5 E6), E6.
  unfold strict_neq_undefined. destruct (isUndefined r); cbn [negb truthy].
  - reflexivity.
  - rewrite call_native. unfold with_events, ev_msIsSiteMode. cbn.
    rewrite <- app_assoc. reflexivity.
Qed.

Lemma Permission_get_siteMode_witness :
  Permission_get (Push_new ie9_inactive_host) ie9_inactive_host init_state =
    (Ok DEFAULT, mkState None false [ev_msIsSiteMode; ev_msIsSiteMode]).
Proof.
  apply (Permission_get_siteMode (Push_new ie9_inactive_host)
           ie9_inactive_host init_state "msIsSiteMode" (VBool false) []);
    reflexivity.
Defined.

(** X6.  The capability probe touches the host at most once: it leaves the
    globals alone, its only possible call is one [msIsSiteMode], and it makes
    no call at all when [Notification], [webkitNotifications] or
    [mozNotification] is present, in which case the answer is [true] whatever
    state [window.external] is in. *)
Theorem isSupported_probe_effect (h : host) (s : state) :
  exists l,
    extends_by s (snd (isSupported_probe h s)) l
    /\ (l = [] \/ l = [ev_msIsSiteMode])
    /\ (truthy (lookup "Notification" (w h))
        || truthy (lookup "webkitNotifications" (w h))
        || truthy (lookup "mozNotification" (navigator h)) = true ->
        l = [] /\ isSupported h = true).
Proof.
  pose proof (isSupported_probe_result h s) as R.
  unfold isSupported_probe, isSupported_expr in *.
  unfold bind at 1 in R. unfold bind at 1. cbn [W get_prop ret] in *.
  unfold js_or at 1 in R. unfold js_or at 1.
  destruct (truthy (lookup "Notification" (w h))) eqn:E1.
  { cbn [ret snd fst] in *. rewrite E1 in *. injection R as R.
    exists []. split; [apply extends_by_nil|]. auto. }
  unfold bind at 1 in R. unfold bind at 1. cbn [get_prop ret] in *.
  unfold js_or at 1 in R. unfold js_or at 1.
  destruct (truthy (lookup "webkitNotifications" (w h))) eqn:E2.
  { cbn [ret snd fst] in *. rewrite E2 in *. injection R as R.
    exists []. split; [apply extends_by_nil|]. auto. }
  unfold bind at 1 in R. unfold bind at 1. cbn [Navigator get_prop ret] in *.
  unfold js_or at 1 in R. unfold js_or at 1.
  destruct (truthy (lookup "mozNotification" (navigator h))) eqn:E3.
  { cbn [ret snd fst] in *. rewrite E3 in *. injection R as R.
    exists []. split; [apply extends_by_nil|]. auto. }
  clear R. cbn [orb].
  assert (X : exists l, extends_by s (snd (siteMode_test h s)) l
                        /\ (l = [] \/ l = [ev_msIsSiteMode])).
  { unfold siteMode_test. unfold bind at 1. cbn [W get_prop ret].
    unfold js_and.
    destruct (truthy (lookup "external" (w h))) eqn:E;
      [|exists []; split; [apply extends_by_nil | auto]].
    unfold bind at 1. cbn [get_prop ret]. unfold bind at 1.
    rewrite (get_prop_of_truthy _ "msIsSiteMode" s E).
    destruct (host_prop (lookup "external" (w h)) "msIsSiteMode")
      as [| | | | | |[lbl|lbl] r l]; cbn;
      first [ exists []; split; [apply extends_by_nil | auto]
            | exists [ev_msIsSiteMode]; split; [repeat split | auto] ]. }
  destruct X as (l & X & L). exists l.
  destruct (siteMode_test h s) as [[c|e] s']; cbn [snd] in *;
    (split; [exact X|]; split; [exact L | discriminate]).
Qed.

(** ** Further properties of display and binding *)

(** Stepping through the statements of a function. *)
Lemma bind_W {A} (h : host) (k : string) (K : value -> M A) (s : state) :
  bind (get_prop (W h) k) K s = K (lookup k (w h)) s.
Proof. reflexivity. Qed.

Lemma bind_Navigator {A} (h : host) (k : string) (K : value -> M A) (s : state) :
  bind (get_prop (Navigator h) k) K s = K (lookup k (navigator h)) s.
Proof. reflexivity. Qed.

Lemma bind_get_object {A} (o : props) (k : string) (K : value -> M A) (s : state) :
  bind (get_prop (VObj o) k) K s = K (lookup k o) s.
Proof. reflexivity. Qed.

Lemma bind_get_nonnull {A} (a : value) (k : string) (K : value -> M A) (s : state) :
  nullish a = false ->
  bind (get_prop a k) K s = K (host_prop a k) s.
Proof.
  intro N. unfold bind. rewrite get_prop_nullish, N. reflexivity.
Qed.

Lemma bind_call_native {A} (site label : string) (r : value) (l : props)
    (args : list arg) (K : value -> M A) (s : state) :
  bind (call site (VFun (FNative label) r l) args) K s =
    K r (with_events s [EvCall site args]).
Proof. reflexivity. Qed.

Lemma bind_construct_native {A} (site label : string) (r : value) (l : props)
    (args : list arg) (K : value -> M A) (s : state) :
  bind (construct site (VFun (FNative label) r l) args) K s =
    K r (with_events s [EvNew site args]).
Proof. reflexivity. Qed.

Lemma bind_read_notification {A} (n : value) (K : value -> M A) (s : state) :
  g_notification s = Some n ->
  bind read_notification K s = K n s.
Proof.
  intro G. unfold bind, read_notification. rewrite G. reflexivity.
Qed.

Lemma bind_write_notification {A} (v : value) (K : unit -> M A) (s : state) :
  bind (write_notification v) K s =
    K tt (mkState (Some v) (g_wrapper s) (trace s)).
Proof. reflexivity. Qed.

Lemma native_not_nullish (a : value) (k label : string) (r : value) (l : props) :
  host_prop a k = VFun (FNative label) r l -> nullish a = false.
Proof. destruct a; cbn; intro E; try discriminate E; reflexivity. Qed.

Lemma native_base_truthy (a : value) (k label : string) (r : value) (l : props) :
  host_prop a k = VFun (FNative label) r l -> truthy a = true.
Proof. destruct a; cbn; intro E; try discriminate E; reflexivity. Qed.

(** Lines 76 and 109 on an options object: a TypeError on a null icon, and
    [icon_value] otherwise. *)
Lemma resolve_icon_value (o : props) (size : string) (s : state) :
  resolve_icon (VObj o) size s =
    if is_null (lookup "icon" o) then (Throw TypeError, s)
    else (Ok (icon_value (lookup "icon" o) size), s).
Proof.
  rewrite resolve_icon_object.
  destruct (lookup "icon" o) as [| |b|n|str|l|f r l]; try reflexivity.
  - destruct b; reflexivity.
  - unfold isString. cbn. rewrite andb_false_r. reflexivity.
  - unfold isString. cbn. destruct (String.eqb str ""); reflexivity.
Qed.

(** X7.  Display under the ModernNotification variant, for every options
    object: a null icon raises a TypeError before anything is constructed;
    otherwise exactly one notification is constructed, from the title and the
    record of the resolved icon, [body] and [tag] alone (every other field of
    the options is ignored), and it becomes the global [notification]
    whatever that held before. *)
Theorem display_modern
    (h : host) (title : value) (o : props) (s : state)
    (label : string) (r : value) (l : props) :
  lookup "Notification" (w h) = VFun (FNative label) r l ->
  display h title (VObj o) s =
    if is_null (lookup "icon" o) then (Throw TypeError, s)
    else (Ok tt,
          mkState (Some r) (g_wrapper s)
            (trace s ++
             [EvNew "w.Notification" [AVal title; AVal (notification_options o)]])).
Proof.
  intro N. unfold display. rewrite bind_W, N. cbn [truthy].
  rewrite bind_W, N. unfold bind at 1. rewrite resolve_icon_value.
  destruct (is_null (lookup "icon" o)); reflexivity.
Qed.

Lemma display_modern_witness :
  display (modern_host GRANTED) (VStr "Hi")
    (VObj [("icon", VStr ""); ("body", VStr "there"); ("sticky", VBool true)])
    (mkState (Some moz_notification) true []) =
    (Ok tt,
     mkState (Some modern_notification) true
       [EvNew "w.Notification"
          [AVal (VStr "Hi");
           AVal (VObj [("icon", VUndefined); ("body", VStr "there");
                       ("tag", VUndefined)])]])
  /\ display (modern_host GRANTED) (VStr "Hi") (VObj [("icon", VNull)])
       init_state = (Throw TypeError, init_state).
Proof.
  split.
  - apply (display_modern (modern_host GRANTED) (VStr "Hi")
             [("icon", VStr ""); ("body", VStr "there"); ("sticky", VBool true)]
             (mkState (Some moz_notification) true [])
             "Notification" modern_notification
             [("permission", GRANTED);
              ("requestPermission",
               VFun (FNative "requestPermission") VUndefined [])]).
    reflexivity.
  - apply (display_modern (modern_host GRANTED) (VStr "Hi") [("icon", VNull)]
             init_state "Notification" modern_notification
             [("permission", GRANTED);
              ("requestPermission",
               VFun (FNative "requestPermission") VUndefined [])]).
    reflexivity.
Defined.

(** X8.  Display under the Firefox Mobile variant: the notification is
    created from the positional arguments title, body, icon and then shown
    explicitly.  The icon is passed as the options hold it: a sized record is
    not resolved, and no icon value makes the step raise. *)
Theorem display_mozNotification
    (h : host) (title : value) (o : props) (s : state)
    (label label' : string) (n r' : value) (l l' : props) :
  truthy (lookup "Notification" (w h)) = false ->
  truthy (lookup "webkitNotifications" (w h)) = false ->
  host_prop (lookup "mozNotification" (navigator h)) "createNotification" =
    VFun (FNative label) n l ->
  host_prop n "show" = VFun (FNative label') r' l' ->
  display h title (VObj o) s =
    (Ok tt,
     mkState (Some n) (g_wrapper s)
       (trace s ++
        [EvCall "navigator.mozNotification.createNotification"
           [AVal title; AVal (lookup "body" o); AVal (lookup "icon" o)];
         ev_show])).
Proof.
  intros E1 E2 C Sh. unfold display.
  rewrite bind_W, E1, bind_W, E2, bind_Navigator.
  rewrite (native_base_truthy _ _ _ _ _ C).
  rewrite bind_Navigator.
  rewrite (bind_get_nonnull _ _ _ _ (native_not_nullish _ _ _ _ _ C)), C.
  rewrite !bind_get_object, bind_call_native, bind_write_notification.
  rewrite (bind_read_notification n) by reflexivity.
  rewrite (bind_get_nonnull _ _ _ _ (native_not_nullish _ _ _ _ _ Sh)), Sh.
  rewrite bind_call_native. unfold ret, with_events, ev_show. cbn.
  rewrite <- app_assoc. reflexivity.
Qed.

Lemma display_mozNotification_witness :
  display moz_host (VStr "Hi") (VObj [("icon", sized_icon)]) init_state =
    (Ok tt,
     mkState (Some moz_notification) false
       [EvCall "navigator.mozNotification.createNotification"
          [AVal (VStr "Hi"); AVal VUndefined; AVal sized_icon];
        ev_show]).
Proof.
  apply (display_mozNotification moz_host (VStr "Hi") [("icon", sized_icon)]
           init_state "createNotification" "show" moz_notification VUndefined
           [] []); reflexivity.
Defined.

Lemma bind_read_win {A} (h : host) (v : value) (K : value -> M A) (s : state) :
  win h = Some v -> bind (read_win h) K s = K v s.
Proof. intro E. unfold bind, read_win. rewrite E. reflexivity. Qed.

(** X9.  Display under the LegacyWebkitNotification variant goes through the
    identifier [win] (line 85).  On a page without such a global it raises a
    ReferenceError before anything is created, for every title and options.
    On a page whose [win] is the window it creates the notification from the
    positional arguments icon, title, body, with the icon as the options hold
    it, and shows it explicitly. *)
Theorem display_webkitNotifications
    (h : host) (title : value) (s : state) :
  truthy (lookup "Notification" (w h)) = false ->
  truthy (lookup "webkitNotifications" (w h)) = true ->
  (win h = None ->
   forall options, display h title options s = (Throw ReferenceError, s))
  /\ (forall o label label' n r' l l',
        win h = Some (VObj (w h)) ->
        host_prop (lookup "webkitNotifications" (w h)) "createNotification" =
          VFun (FNative label) n l ->
        host_prop n "show" = VFun (FNative label') r' l' ->
        display h title (VObj o) s =
          (Ok tt,
           mkState (Some n) (g_wrapper s)
             (trace s ++
              [EvCall "win.webkitNotifications.createNotification"
                 [AVal (lookup "icon" o); AVal title; AVal (lookup "body" o)];
               ev_show]))).
Proof.
  intros E1 E2. split.
  - intros Wn options. unfold display. rewrite bind_W, E1, bind_W, E2.
    unfold bind, read_win. rewrite Wn. reflexivity.
  - intros o label label' n r' l l' Wn C Sh. unfold display.
    rewrite bind_W, E1, bind_W, E2.
    rewrite (bind_read_win h _ _ s Wn), bind_get_object.
    rewrite (bind_get_nonnull _ _ _ _ (native_not_nullish _ _ _ _ _ C)), C.
    rewrite !bind_get_object, bind_call_native, bind_write_notification.
    rewrite (bind_read_notification n) by reflexivity.
    rewrite (bind_get_nonnull _ _ _ _ (native_not_nullish _ _ _ _ _ Sh)), Sh.
    rewrite bind_call_native. unfold ret, with_events, ev_show. cbn.
    rewrite <- app_assoc. reflexivity.
Qed.

Lemma display_webkitNotifications_witness :
  display (webkit_host (VNum 0)) (VStr "Hi") (VObj [("body", VStr "there")])
    init_state = (Throw ReferenceError, init_state)
  /\ display (webkit_host_with_win (VNum 0)) (VStr "Hi")
       (VObj [("body", VStr "there"); ("icon", VStr "icon.png")]) init_state =
       (Ok tt,
        mkState (Some webkit_notification) false
          [EvCall "win.webkitNotifications.createNotification"
             [AVal (VStr "icon.png"); AVal (VStr "Hi"); AVal (VStr "there")];
           ev_show]).
Proof.
  split.
  - apply (proj1 (display_webkitNotifications (webkit_host (VNum 0))
                    (VStr "Hi") init_state eq_refl eq_refl)).
    reflexivity.
  - apply (proj2 (display_webkitNotifications (webkit_host_with_win (VNum 0))
                    (VStr "Hi") init_state eq_refl eq_refl)
             [("body", VStr "there"); ("icon", VStr "icon.png")]
             "createNotification" "show" webkit_notification VUndefined
             [] []); reflexivity.
Defined.

(** X10.  Display under the SiteModeOverlay variant on a page whose [win] is
    the window.  Outside site mode ([msIsSiteMode()] falsy) nothing is done
    and the global [notification] keeps what it held.  In site mode the
    overlay is cleared first; a null icon then raises, leaving the overlay
    cleared and unset; otherwise the overlay is set to the resolved [x16]
    icon with the title, site mode is activated, and [notification] becomes
    an empty placeholder. *)
Theorem display_siteMode
    (h : host) (title : value) (o : props) (s : state)
    (l1 l2 l3 l4 : string) (r r2 r3 r4 : value) (p1 p2 p3 p4 : props) :
  truthy (lookup "Notification" (w h)) = false ->
  truthy (lookup "webkitNotifications" (w h)) = false ->
  truthy (lookup "mozNotification" (navigator h)) = false ->
  win h = Some (VObj (w h)) ->
  signal_msIsSiteMode h = VFun (FNative l1) r p1 ->
  host_prop (lookup "external" (w h)) "msSiteModeClearIconOverlay" =
    VFun (FNative l2) r2 p2 ->
  host_prop (lookup "external" (w h)) "msSiteModeSetIconOverlay" =
    VFun (FNative l3) r3 p3 ->
  host_prop (lookup "external" (w h)) "msSiteModeActivate" =
    VFun (FNative l4) r4 p4 ->
  display h title (VObj o) s =
    if negb (truthy r) then (Ok tt, with_events s [ev_win_msIsSiteMode])
    else if is_null (lookup "icon" o) then
      (Throw TypeError, with_events s [ev_win_msIsSiteMode; ev_clear_overlay])
    else
      (Ok tt,
       mkState (Some (VObj [])) (g_wrapper s)
         (trace s ++
          [ev_win_msIsSiteMode; ev_clear_overlay;
           EvCall "w.external.msSiteModeSetIconOverlay"
             [AVal (icon_value (lookup "icon" o) "x16"); AVal title];
           ev_activate])).
Proof.
  intros E1 E2 E3 Wn F1 F2 F3 F4. unfold signal_msIsSiteMode in F1.
  pose proof (native_not_nullish _ _ _ _ _ F1) as NN.
  pose proof (native_base_truthy _ _ _ _ _ F1) as TT.
  unfold display. rewrite bind_W, E1, bind_W, E2, bind_Navigator, E3.
  rewrite (bind_read_win h _ _ s Wn), bind_get_object.
  unfold bind at 1. unfold js_and. rewrite TT.
  rewrite (bind_read_win h _ _ s Wn), bind_get_object.
  rewrite (bind_get_nonnull _ _ _ _ NN), F1.
  rewrite call_native.
  destruct (truthy r); cbn [negb]; [|reflexivity].
  rewrite bind_W, (bind_get_nonnull _ _ _ _ NN), F2, bind_call_native.
  rewrite bind_W, (bind_get_nonnull _ _ _ _ NN), F3.
  unfold bind at 1. rewrite resolve_icon_value.
  destruct (is_null (lookup "icon" o)).
  { unfold with_events, ev_win_msIsSiteMode, ev_clear_overlay. cbn.
    rewrite <- app_assoc. reflexivity. }
  rewrite bind_call_native.
  rewrite bind_W, (bind_get_nonnull _ _ _ _ NN), F4, bind_call_native.
  unfold write_notification, with_events, ev_win_msIsSiteMode,
    ev_clear_overlay, ev_activate. cbn.
  rewrite <- !app_assoc. reflexivity.
Qed.

Lemma display_siteMode_witness :
  display ie9_host_with_win (VStr "Hi") (VObj [("icon", VNull)]) init_state =
    (Throw TypeError,
     mkState None false [ev_win_msIsSiteMode; ev_clear_overlay]).
Proof.
  apply (display_siteMode ie9_host_with_win (VStr "Hi") [("icon", VNull)]
           init_state "msIsSiteMode" "msSiteModeClearIconOverlay"
           "msSiteModeSetIconOverlay" "msSiteModeActivate"
           (VBool true) VUndefined VUndefined VUndefined [] [] [] []);
    reflexivity.
Defined.

(** Registering a listener on an object whose [addEventListener] is a host
    function. *)
Lemma addEventListener_native
    (type label : string) (listener : M arg) (a : arg) (n r : value)
    (l : props) (s : state) :
  g_notification s = Some n ->
  host_prop n "addEventListener" = VFun (FNative label) r l ->
  listener s = (Ok a, s) ->
  addEventListener type listener s =
    (Ok tt, with_events s [listener_event type a]).
Proof.
  intros G A L. unfold addEventListener.
  rewrite (bind_read_notification n _ s G).
  rewrite (bind_get_nonnull _ _ _ _ (native_not_nullish _ _ _ _ _ A)), A.
  unfold bind at 1. rewrite L. reflexivity.
Qed.

Lemma register_slot
    (o : props) (slot type label : string) (n r : value) (l : props)
    (s : state) :
  g_notification s = Some n ->
  host_prop n "addEventListener" = VFun (FNative label) r l ->
  (if isFunction (lookup slot o)
   then addEventListener type (option_slot (VObj o) slot)
   else ret tt) s =
    (Ok tt, with_events s (slot_registration o slot type)).
Proof.
  intros G A. unfold slot_registration.
  destruct (isFunction (lookup slot o)).
  - apply (addEventListener_native type label _ _ n r l s G A).
    apply option_slot_object.
  - unfold ret. rewrite with_events_nil. reflexivity.
Qed.

(** Lines 137-165 on an object whose [addEventListener] is a host function:
    binding returns normally after the registrations of [registrations]. *)
Lemma lifecycle_bind_events
    (o : props) (label : string) (n r : value) (l : props) (s : state) :
  g_notification s = Some n ->
  host_prop n "addEventListener" = VFun (FNative label) r l ->
  lifecycle_bind (VObj o) s = (Ok tt, with_events s (registrations o)).
Proof.
  intros G A.
  assert (Step : forall slot type st,
            g_notification st = Some n ->
            (if isFunction (lookup slot o)
             then addEventListener type (option_slot (VObj o) slot)
             else ret tt) st =
              (Ok tt, with_events st (slot_registration o slot type))).
  { intros slot type st Gst. exact (register_slot o slot type label n r l st Gst A). }
  unfold lifecycle_bind, registrations.
  assert (T : bind_timeout (VObj o) s =
              (Ok tt,
               with_events s
                 (if truthy (lookup "timeout" o)
                  then [listener_event "show"
                          (AClosure (CShowListener (VObj o)))]
                  else []))).
  { unfold bind_timeout. rewrite (bind_read_notification n _ s G).
    unfold bind at 1. unfold js_and at 1.
    rewrite (native_base_truthy _ _ _ _ _ A).
    rewrite (bind_read_notification n _ s G).
    rewrite (bind_get_nonnull _ _ _ _ (native_not_nullish _ _ _ _ _ A)), A.
    unfold js_and. cbn [truthy get_prop ret].
    destruct (truthy (lookup "timeout" o)).
    - apply (addEventListener_native "show" label _ _ n r l s G A).
      reflexivity.
    - unfold ret. rewrite with_events_nil. reflexivity. }
  unfold bind at 1. rewrite T. unfold bind_callbacks.
  rewrite bind_get_object. unfold bind at 1. rewrite Step by exact G.
  rewrite bind_get_object. unfold bind at 1. rewrite Step by exact G.
  rewrite bind_get_object. unfold bind at 1. rewrite Step by exact G.
  rewrite bind_get_object.
  unfold slot_registration.
  destruct (isFunction (lookup "onClose" o)).
  - unfold bind at 1.
    match goal with
    | |- context [addEventListener "close" _ ?st] =>
        rewrite (addEventListener_native "close" label _
                   (AVal (lookup "onClose" o)) n r l st G A)
          by apply option_slot_object
    end.
    match goal with
    | |- context [addEventListener "cancel" _ ?st] =>
        rewrite (addEventListener_native "cancel" label _
                   (AVal (lookup "onClose" o)) n r l st G A)
          by apply option_slot_object
    end.
    rewrite !with_events_app. reflexivity.
  - unfold ret. rewrite !with_events_app, !app_nil_r. reflexivity.
Qed.

(** [create_callback] under the ModernNotification variant, when the icon is
    not null and the constructed object has [addEventListener]. *)
Lemma create_callback_modern_run
    (h : host) (title : value) (o : props) (s : state)
    (label label' : string) (n r : value) (l l' : props) :
  lookup "Notification" (w h) = VFun (FNative label) n l ->
  host_prop n "addEventListener" = VFun (FNative label') r l' ->
  is_null (lookup "icon" o) = false ->
  create_callback h title (VObj o) s =
    (Ok VUndefined,
     mkState (Some n) true
       (trace s ++
        EvNew "w.Notification" [AVal title; AVal (notification_options o)]
        :: registrations o)).
Proof.
  intros N A I. unfold create_callback. unfold bind at 1.
  unfold display. rewrite bind_W, N. cbn [truthy].
  rewrite bind_W, N. unfold bind at 1. rewrite resolve_icon_value, I.
  rewrite !bind_get_object, bind_construct_native.
  unfold write_notification at 1. unfold bind at 1.
  unfold write_wrapper at 1. unfold bind at 1.
  match goal with
  | |- context [lifecycle_bind (VObj o) ?st] =>
      rewrite (lifecycle_bind_events o label' n r l' st eq_refl A)
  end.
  unfold ret, with_events, notification_options. cbn.
  rewrite <- app_assoc. reflexivity.
Qed.

(** X11.  Binding on a notification object whose [addEventListener] is a
    host function returns normally, for every options object, after the
    registrations of [registrations], in that order.  Only functions are
    registered as callbacks; [onClose] is registered under both the [close]
    and the [cancel] event; and the auto-close listener is registered only
    for a truthy [timeout] (so not for a timeout of 0). *)
Theorem lifecycle_bind_registers
    (o : props) (label : string) (n r : value) (l : props) (s : state) :
  g_notification s = Some n ->
  host_prop n "addEventListener" = VFun (FNative label) r l ->
  lifecycle_bind (VObj o) s = (Ok tt, with_events s (registrations o))
  /\ (forall type v,
        In (listener_event type (AVal v)) (registrations o) ->
        isFunction v = true)
  /\ (isFunction (lookup "onClose" o) = true ->
      In (listener_event "close" (AVal (lookup "onClose" o))) (registrations o)
      /\ In (listener_event "cancel" (AVal (lookup "onClose" o)))
           (registrations o))
  /\ (truthy (lookup "timeout" o) = false ->
      forall type c,
        ~ In (listener_event type (AClosure c)) (registrations o)).
Proof.
  intros G A. split; [exact (lifecycle_bind_events o label n r l s G A)|].
  assert (Slot : forall slot type e,
            In e (slot_registration o slot type) ->
            e = listener_event type (AVal (lookup slot o))
            /\ isFunction (lookup slot o) = true).
  { intros slot type e. unfold slot_registration.
    destruct (isFunction (lookup slot o)); [|intros []].
    intros [<- | []]. auto. }
  split; [|split].
  - intros type v I. unfold registrations in I.
    rewrite !in_app_iff in I.
    destruct I as [I | I].
    { destruct (truthy (lookup "timeout" o)); [|destruct I].
      destruct I as [I | []]. discriminate I. }
    repeat (destruct I as [I | I]);
      apply Slot in I; destruct I as [E F]; injection E as _ ->; exact F.
  - intro C. unfold registrations, slot_registration. rewrite C.
    rewrite !in_app_iff. split.
    + do 4 right. left. left. reflexivity.
    + do 5 right. left. reflexivity.
  - intros T type c I. unfold registrations in I. rewrite T in I.
    cbn [app] in I. rewrite !in_app_iff in I.
    repeat (destruct I as [I | I]);
      apply Slot in I; destruct I as [E _]; discriminate E.
Qed.

Lemma lifecycle_bind_registers_witness :
  lifecycle_bind
    (VObj [("timeout", VNum 0); ("onClose", page_callback "onClose");
           ("onClick", VStr "not a function")])
    shown_state =
    (Ok tt,
     mkState (Some modern_notification) true
       [listener_event "close" (AVal (page_callback "onClose"));
        listener_event "cancel" (AVal (page_callback "onClose"))]).
Proof.
  apply (proj1 (lifecycle_bind_registers
                  [("timeout", VNum 0); ("onClose", page_callback "onClose");
                   ("onClick", VStr "not a function")]
                  "addEventListener" modern_notification VUndefined []
                  shown_state eq_refl eq_refl)).
Defined.

(** X12.  The auto-close chain under the ModernNotification variant.  With a
    truthy [timeout], [create_callback] registers the [show] listener; when
    the host fires it, [setTimeout] is called with the [timeout] of the
    options, and when that timer expires the native [close] is invoked once.
    Nothing cancels the timer: if the handle is closed by hand in between,
    the timer invokes the native [close] a second time. *)
Theorem auto_close_after_show
    (h : host) (title : value) (o : props) (s : state)
    (label label' label'' : string) (n r r' : value) (l l' l'' : props) :
  lookup "Notification" (w h) = VFun (FNative label) n l ->
  host_prop n "addEventListener" = VFun (FNative label') r l' ->
  host_prop n "close" = VFun (FNative label'') r' l'' ->
  is_null (lookup "icon" o) = false ->
  truthy (lookup "timeout" o) = true ->
  In (listener_event "show" (AClosure (CShowListener (VObj o))))
    (registrations o)
  /\ (create_callback h title (VObj o) ;;; show_then_expire h o) s =
       (Ok VUndefined,
        mkState (Some n) true
          (trace s ++
           EvNew "w.Notification" [AVal title; AVal (notification_options o)]
           :: registrations o
           ++ [ev_setTimeout (lookup "timeout" o); ev_close]))
  /\ (create_callback h title (VObj o) ;;;
      run_closure h (CShowListener (VObj o)) [] ;;;
      wrapper_close h ;;;
      run_closure h CTimer []) s =
       (Ok VUndefined,
        mkState (Some n) true
          (trace s ++
           EvNew "w.Notification" [AVal title; AVal (notification_options o)]
           :: registrations o
           ++ [ev_setTimeout (lookup "timeout" o); ev_close; ev_close])).
Proof.
  intros N A C I T.
  pose proof (create_callback_modern_run h title o s label label' n r l l'
                N A I) as R.
  assert (Cl : forall st, g_notification st = Some n ->
                 wrapper_close h st = (Ok VUndefined, with_events st [ev_close])).
  { intros st G.
    exact (proj1 (wrapper_close_native h st n G) label'' r' l'' C). }
  split; [|split].
  - unfold registrations. rewrite T. left. reflexivity.
  - unfold bind at 1. rewrite R. unfold show_then_expire.
    unfold bind at 1. cbn [run_closure]. rewrite bind_get_object.
    unfold bind at 1. cbn [emit ret g_wrapper g_notification trace].
    rewrite Cl by reflexivity. unfold with_events. cbn.
    rewrite <- !app_assoc. reflexivity.
  - unfold bind at 1. rewrite R.
    unfold bind at 1. cbn [run_closure]. rewrite bind_get_object.
    unfold bind at 1. cbn [emit ret g_wrapper g_notification trace].
    unfold bind at 1. rewrite Cl by reflexivity.
    cbn [run_closure with_events g_wrapper g_notification trace].
    rewrite Cl by reflexivity. unfold with_events. cbn.
    rewrite <- !app_assoc. reflexivity.
Qed.

Lemma auto_close_after_show_witness :
  (create_callback (modern_host GRANTED) (VStr "Hi")
     (VObj [("timeout", VNum 5000)]) ;;;
   show_then_expire (modern_host GRANTED) [("timeout", VNum 5000)])
    init_state =
    (Ok VUndefined,
     mkState (Some modern_notification) true
       [EvNew "w.Notification"
          [AVal (VStr "Hi");
           AVal (VObj [("icon", VUndefined); ("body", VUndefined);
                       ("tag", VUndefined)])];
        listener_event "show"
          (AClosure (CShowListener (VObj [("timeout", VNum 5000)])));
        ev_setTimeout (VNum 5000);
        ev_close]).
Proof.
  apply (proj1 (proj2
           (auto_close_after_show (modern_host GRANTED) (VStr "Hi")
              [("timeout", VNum 5000)] init_state
              "Notification" "addEventListener" "close"
              modern_notification VUndefined VUndefined
              [("permission", GRANTED);
               ("requestPermission",
                VFun (FNative "requestPermission") VUndefined [])]
              [] [] eq_refl eq_refl eq_refl eq_refl eq_refl))).
Defined.

(** ** Further properties of the facade and of the handle *)

Lemma bind_raises {A B} (m : M A) (k : A -> M B) (s : state) :
  (forall a st, is_throw (fst (k a st)) = true) ->
  is_throw (fst (bind m k s)) = true.
Proof.
  intro K. unfold bind. destruct (m s) as [[a|e] s']; [apply K | reflexivity].
Qed.

(** X13.  [create_callback] needs an options object: with [options]
    undefined or null (as after [create(title)] with one argument) it raises
    on every host and in every state, and under the ModernNotification
    variant it does so before constructing anything. *)
Theorem create_callback_without_options
    (h : host) (title options : value) (s : state) :
  nullish options = true ->
  is_throw (fst (create_callback h title options s)) = true
  /\ (truthy (lookup "Notification" (w h)) = true ->
      create_callback h title options s = (Throw TypeError, s)).
Proof.
  intro N.
  assert (G : forall k st, get_prop options k st = (Throw TypeError, st))
    by (intros k st; destruct options; try discriminate N; reflexivity).
  split.
  - unfold create_callback. apply bind_raises. intros _ st.
    apply bind_raises. intros _ st1. unfold bind at 1.
    assert (L : is_throw (fst (lifecycle_bind options st1)) = true).
    { unfold lifecycle_bind. apply bind_raises. intros _ st2.
      unfold bind_callbacks. unfold bind at 1. rewrite G. reflexivity. }
    destruct (lifecycle_bind options st1) as [[u|e] st2];
      [discriminate L | reflexivity].
  - intro T. unfold create_callback, display.
    unfold bind at 1. rewrite bind_W, T, bind_W.
    unfold bind at 1. unfold resolve_icon. unfold bind at 1. rewrite G.
    reflexivity.
Qed.

Lemma create_callback_without_options_witness :
  create_callback (modern_host GRANTED) (VStr "Hi") VUndefined init_state =
    (Throw TypeError, init_state).
Proof.
  apply (proj2 (create_callback_without_options (modern_host GRANTED)
                  (VStr "Hi") VUndefined init_state eq_refl)).
  reflexivity.
Defined.

(** X14.  The components do not share one precedence.  On a browser that has
    both the legacy object (with [checkPermission] and [requestPermission])
    and the [Notification] constructor, [Permission.request] goes to the
    legacy [requestPermission], even when [Notification.requestPermission]
    exists, while display constructs a [Notification] and never touches the
    legacy object. *)
Theorem mixed_variant_precedence
    (self : Push) (h : host) (callback : arg) (title : value) (o : props)
    (s : state) (label label' : string) (n r : value) (l l' : props) :
  self_isSupported self = true ->
  truthy (signal_checkPermission h) = true ->
  host_prop (lookup "webkitNotifications" (w h)) "requestPermission" =
    VFun (FNative label') r l' ->
  lookup "Notification" (w h) = VFun (FNative label) n l ->
  is_null (lookup "icon" o) = false ->
  Permission_request self h callback s =
    (Ok VUndefined,
     with_events s
       [EvCall "w.webkitNotifications.requestPermission"
          [normalize_callback callback]])
  /\ display h title (VObj o) s =
       (Ok tt,
        mkState (Some n) (g_wrapper s)
          (trace s ++
           [EvNew "w.Notification"
              [AVal title; AVal (notification_options o)]])).
Proof.
  intros S C R N I. split.
  - rewrite (Permission_request_supported self h callback s S).
    unfold request_target. rewrite C, R. reflexivity.
  - unfold display. rewrite bind_W, N. cbn [truthy].
    rewrite bind_W, N. unfold bind at 1. rewrite resolve_icon_value, I.
    reflexivity.
Qed.

Lemma mixed_variant_precedence_witness :
  Permission_request (Push_new dual_host) dual_host
    (AVal (page_callback "onGranted")) init_state =
    (Ok VUndefined,
     mkState None false
       [EvCall "w.webkitNotifications.requestPermission"
          [AVal (page_callback "onGranted")]])
  /\ display dual_host (VStr "Hi") (VObj [("body", VStr "there")]) init_state =
       (Ok tt,
        mkState (Some modern_notification) false
          [EvNew "w.Notification"
             [AVal (VStr "Hi");
              AVal (VObj [("icon", VUndefined); ("body", VStr "there");
                          ("tag", VUndefined)])]]).
Proof.
  apply (mixed_variant_precedence (Push_new dual_host) dual_host
           (AVal (page_callback "onGranted")) (VStr "Hi")
           [("body", VStr "there")] init_state
           "Notification" "requestPermission" modern_notification VUndefined
           [("permission", DEFAULT);
            ("requestPermission",
             VFun (FNative "requestPermission") VUndefined [])]
           []); reflexivity.
Defined.

(** X16.  The handle does not own its notification: [wrapper.close] reads
    the global [notification], which every display overwrites.  After a
    first notification [n1] and then a second one that has nothing to close
    it by, closing invokes nothing, whatever [n1] offered: the first
    notification can no longer be closed through its handle. *)
Theorem close_reaches_only_latest
    (h1 h2 : host) (title1 title2 : value) (o1 o2 : props) (s : state)
    (a1 a2 b1 b2 : string) (n1 n2 r1 r2 : value) (l1 l2 p1 p2 : props) :
  lookup "Notification" (w h1) = VFun (FNative a1) n1 l1 ->
  host_prop n1 "addEventListener" = VFun (FNative b1) r1 p1 ->
  is_null (lookup "icon" o1) = false ->
  lookup "Notification" (w h2) = VFun (FNative a2) n2 l2 ->
  host_prop n2 "addEventListener" = VFun (FNative b2) r2 p2 ->
  is_null (lookup "icon" o2) = false ->
  truthy (host_prop n2 "close") = false ->
  truthy (host_prop n2 "cancel") = false ->
  truthy (lookup "external" (w h2)) = false ->
  (create_callback h1 title1 (VObj o1) ;;;
   create_callback h2 title2 (VObj o2) ;;;
   wrapper_close h2) s =
  (create_callback h1 title1 (VObj o1) ;;;
   create_callback h2 title2 (VObj o2)) s.
Proof.
  intros N1 A1 I1 N2 A2 I2 C C' E.
  unfold bind at 1 3.
  rewrite (create_callback_modern_run h1 title1 o1 s a1 b1 n1 r1 l1 p1 N1 A1 I1).
  unfold bind at 1.
  match goal with
  | |- context [create_callback h2 title2 (VObj o2) ?st] =>
      rewrite (create_callback_modern_run h2 title2 o2 st a2 b2 n2 r2 l2 p2
                 N2 A2 I2)
  end.
  apply (wrapper_close_no_primitive h2 _ n2); auto.
  exact (native_not_nullish _ _ _ _ _ A2).
Qed.

Lemma close_reaches_only_latest_witness :
  (create_callback (modern_host GRANTED) (VStr "first") (VObj []) ;;;
   create_callback unclosable_host (VStr "second") (VObj []) ;;;
   wrapper_close unclosable_host) init_state =
    (Ok VUndefined,
     mkState (Some unclosable_notification) true
       [EvNew "w.Notification"
          [AVal (VStr "first");
           AVal (VObj [("icon", VUndefined); ("body", VUndefined);
                       ("tag", VUndefined)])];
        EvNew "w.Notification"
          [AVal (VStr "second");
           AVal (VObj [("icon", VUndefined); ("body", VUndefined);
                       ("tag", VUndefined)])]]).
Proof.
  rewrite (close_reaches_only_latest (modern_host GRANTED) unclosable_host
             (VStr "first") (VStr "second") [] [] init_state
             "Notification" "Notification" "addEventListener"
             "addEventListener" modern_notification unclosable_notification
             VUndefined VUndefined
             [("permission", GRANTED);
              ("requestPermission",
               VFun (FNative "requestPermission") VUndefined [])]
             [] [] []
             eq_refl eq_refl eq_refl eq_refl eq_refl eq_refl eq_refl eq_refl
             eq_refl).
  reflexivity.
Defined.

(** ** The site-mode leg of the handle's [close] *)


